(* ===== verification/_CoqProject ===== *)
-Q . S2P
Prelude.v
Alert.v
Clock.v
Store.v
Schema.v
Ingestion.v
Query.v
Dashboard.v
System.v
Concurrency.v
