(* ===== verification/Prelude.v ===== *)
(** * AgriSense: a verification development

    AgriSense (src/AgriSense) is a Flask application over a SQL Server
    table [sensor_data].  Its parts are:
    - the store adapter: [get_db_connection] and the pyodbc calls
      (app.py, lines 23-32, and the [cursor]/[conn] calls of each function),
      over the table the schema script db_setup.py describes;
    - the ingestion job [simulate_and_insert_data] (lines 34-56), which
      writes one random reading per parcel of [PARCELS] in one transaction;
    - the query layer: [get_latest_data] (lines 59-79), the latest row of a
      parcel, and [get_time_series_data] (lines 82-109), the hourly average
      moisture over a trailing window;
    - the alert rule [check_for_alerts] (lines 114-121);
    - the route [dashboard] (lines 125-155), which calls the queries and the
      alert rule and assembles the view;
    - the [__main__] block (lines 157-169): an APScheduler job running the
      ingestion every minute, beside the request thread, stopped at exit.

    ** Files
    - [Prelude] (this file): the state-and-exception monad [pyst] that
      models Python code ([raise], [try/except], [for] loops as [fold_m]),
      the [preserves] combinator and its tactic [preserves_tac], the hint
      databases [agri] and [agri_run], and the list and rational lemmas the
      components share.
    - [Alert]: [check_for_alerts] on exact rationals, and the spec's three
      bands.
    - [Clock]: [DATEADD(hour, ..)] and [FORMAT([timestamp], 'HH:00')] on
      timestamps counted in seconds, the labels [hh_label] and their order.
    - [Store]: the world (committed rows, IDENTITY counter, server clock,
      server and table availability, a per-statement failure oracle, open
      connections, Python's random stream) and the adapter's operations
      [get_db_connection], [execute], [insert_reading], [select_rows],
      [commit], [close]; the invariants [store_wf] and [ts_ok].
    - [Schema]: [create_database] of db_setup.py (lines 7-37) on its own
      world, the SQLite file [agrisense.db]: [sqlite3_connect],
      [execute_create] ([CREATE TABLE IF NOT EXISTS]), [sq_commit],
      [sq_close], all errors caught.
    - [Ingestion]: [uniform], [py_round] (round half to even),
      [insert_parcel] (the loop body) and [simulate_and_insert_data].
    - [Query]: the interface [Top1Desc]/[Top1DescSpec] for the engine's
      [TOP 1 ... ORDER BY [timestamp] DESC] choice, with the instance
      [top1_highest_id]; [get_latest_data]; the GROUP BY statement as
      [hourly_query] and [get_time_series_data].
    - [Dashboard]: the loop body [dashboard_step], the dict [dict_set], the
      route [dashboard] and its view record.
    - [System]: the process as an inductive step relation [step] on
      [sys] (scheduler start, due [tick], request, clock, outage, shutdown).
    - [Concurrency]: the same process statement by statement, [fstep]: a
      tick's phases [job_begin], [job_insert] (one per parcel) and
      [job_finish] (commit, close, the f-string) interleave with requests,
      clock steps and outages.

    Every operation is a function of the world returning an outcome, a
    value or a Python exception, and the world reached; an exception keeps
    the effects done before it.  The components compose as the code does:
    [dashboard] calls [get_latest_data], [alert_of] and
    [get_time_series_data]; [tick] runs [simulate_and_insert_data].

    ** Theorems
    - ingestion: a tick that commits adds exactly one row per parcel and
      then raises [NameError] ([datetime] is never imported); a tick is all
      or nothing; drawn values lie in their ranges; error paths on an
      unreachable server and a missing table;
    - queries: [get_latest_data] returns a row of the greatest timestamp
      for any engine meeting [Top1DescSpec]; the GROUP BY query equals a
      scan of the 24 hours of the day, its points are exactly the hours
      with rows and their means, its labels are increasing; within a window
      of at most 23 hours, rows grouped under one label lie in one clock
      hour; error paths;
    - alerts: the tier is the spec's band, boundaries included, monotone;
    - dashboard: the view lists each parcel with a row with its latest
      values, nothing for absent parcels, the chart of [PARCELS[0]]; a NULL
      moisture raises [TypeError]; an unreachable server gives an empty view;
      every view returned, whatever the store does, is well formed (the
      type of the view: distinct keys from [PARCELS] in order, entries with
      their alert, parallel chart sequences);
    - schema bootstrap: it never loses existing rows, leaves the table in
      place when its statement succeeds, and a failing DDL statement is
      caught with the connection left open;
    - process: no writes after shutdown, only ticks write, and the latest
      row after a tick is the one the tick wrote (highest-id engine), while
      after a server clock set back it is an older row, for every store;
      ingestion always makes progress: n more batches are reachable within
      n intervals (liveness);
    - interleaving: in every state of any interleaving of tick phases with
      requests the table is the initial one followed by complete batches,
      so no reader sees part of a tick.

    ** Bounds and assumptions
    Every definition is structurally recursive: no fuel is needed.  Python
    floats are exact rationals, so binary rounding error is not modelled;
    [round(x, 2)] rounds half to even on the exact value.  Timestamps are
    integer seconds; the server clock only moves forward ([step_clock]).
    Store failures are an explicit oracle [faults], one entry per
    [cursor.execute], so that every pattern of failures is covered
    ([conn.commit()] and [conn.close()] are taken not to fail, and
    statements never block: a hung connection is not modelled); theorems
    on the normal path assume it is empty or all [false] ([no_fault],
    [quiet]).

    ** Not modelled
    Flask routing and [render_template] (the template is not in the
    repository; the model stops at the arguments of [render_template]);
    [print] logging, which changes no state the properties speak of (the
    success line of the job is never printed, since the f-string raises
    first); [CONNECTION_STRING], a constant whose only effect is which
    server [get_db_connection] reaches, modelled by [server_up]; the
    link between the
    two databases (the schema script creates its table in a SQLite file
    that [app.py] never opens, so the SQL Server table's presence is the
    store's [table_ok] flag); float32 storage of REAL columns; APScheduler's
    internals (thread pool, misfire handling) beyond the steps above; lock
    waits of readers, which change when a read happens but not which
    committed rows it can see. *)

From stdpp Require Export base list list_relations strings decidable.
From Stdlib Require Export ZArith QArith Qround Lqa Sorted.

Declare Scope agri_scope.
Delimit Scope agri_scope with agri.

(** ** Python computations: state passing with exceptions

    A Python function that reads and writes the world and may raise is a
    [pyst S E A]: from a state it yields an outcome, a value or an
    exception, together with the state reached.  An exception keeps the
    effects performed before it was raised, as Python does. *)

Inductive res (E A : Type) : Type :=
| Ok (a : A)
| Exc (e : E).
Arguments Ok {E A} a.
Arguments Exc {E A} e.

Definition pyst (S E A : Type) : Type := S -> res E A * S.

#[export] Instance pyst_ret {S E} : MRet (pyst S E) :=
  fun A a s => (Ok a, s).
#[export] Instance pyst_bind {S E} : MBind (pyst S E) :=
  fun A B f m s =>
    match m s with
    | (Ok a, s') => f a s'
    | (Exc e, s') => (Exc e, s')
    end.
#[export] Instance pyst_throw {S E} : MThrow E (pyst S E) :=
  fun A e s => (Exc e, s).

Definition get_st {S E} : pyst S E S := fun s => (Ok s, s).
Definition modify_st {S E} (f : S -> S) : pyst S E unit := fun s => (Ok tt, f s).

(** [try: m  except: h]: the handler sees the state reached at the raise. *)
Definition try_except {S E A} (m : pyst S E A) (h : E -> pyst S E A) : pyst S E A :=
  fun s => match m s with
           | (Exc e, s') => h e s'
           | r => r
           end.

(** [for x in xs: acc = body(acc, x)]: a loop whose body may raise; the
    first exception ends the loop with the state it was raised in. *)
Fixpoint fold_m {S E A B} (body : B -> A -> pyst S E B) (acc : B) (xs : list A)
  : pyst S E B :=
  match xs with
  | [] => mret acc
  | x :: xs' => body acc x ≫= fun acc' => fold_m body acc' xs'
  end.

Notation "'raise' e" := (mthrow e) (at level 10) : agri_scope.
Notation "'try:' m 'except:' h" := (try_except m h) (at level 10) : agri_scope.
Notation "'for:' x 'in' xs 'with' acc ':=' init 'do' body" :=
  (fold_m (fun acc x => body) init xs)
  (at level 10, x binder, acc binder) : agri_scope.

Definition is_ok {E A} (r : res E A) : bool :=
  match r with Ok _ => true | Exc _ => false end.

Section Monad.
Context {S E : Type}.

Lemma run_ret {A} (a : A) (s : S) : (mret a : pyst S E A) s = (Ok a, s).
Proof. reflexivity. Qed.

Lemma run_bind {A B} (m : pyst S E A) (k : A -> pyst S E B) s :
  (m ≫= k) s = match m s with
               | (Ok a, s') => k a s'
               | (Exc e, s') => (Exc e, s')
               end.
Proof. reflexivity. Qed.

Lemma run_throw {A} (e : E) (s : S) : (mthrow e : pyst S E A) s = (Exc e, s).
Proof. reflexivity. Qed.

Lemma bind_ok {A B} (m : pyst S E A) (k : A -> pyst S E B) s a s' :
  m s = (Ok a, s') -> (m ≫= k) s = k a s'.
Proof. intros H. rewrite run_bind, H. reflexivity. Qed.

Lemma bind_exc {A B} (m : pyst S E A) (k : A -> pyst S E B) s e s' :
  m s = (Exc e, s') -> (m ≫= k) s = (Exc e, s').
Proof. intros H. rewrite run_bind, H. reflexivity. Qed.

(** A property of the state preserved by every step of a computation. *)
Definition preserves {A} (P : S -> Prop) (m : pyst S E A) : Prop :=
  forall s, P s -> P (snd (m s)).

Lemma preserves_ret {A} P (a : A) : preserves P (mret a : pyst S E A).
Proof. intros s Hs. exact Hs. Qed.

Lemma preserves_throw {A} P (e : E) : preserves P (mthrow e : pyst S E A).
Proof. intros s Hs. exact Hs. Qed.

Lemma preserves_bind {A B} P (m : pyst S E A) (k : A -> pyst S E B) :
  preserves P m -> (forall a, preserves P (k a)) -> preserves P (m ≫= k).
Proof.
  intros Hm Hk s Hs. rewrite run_bind.
  specialize (Hm s Hs). destruct (m s) as [[a|e] s']; simpl in *; auto.
  apply Hk, Hm.
Qed.

Lemma preserves_fold_m {A B} P (body : B -> A -> pyst S E B) (xs : list A) :
  (forall b x, preserves P (body b x)) -> forall b, preserves P (fold_m body b xs).
Proof.
  intros Hb. induction xs as [|x xs IH]; intros b; simpl.
  - apply preserves_ret.
  - apply preserves_bind; auto.
Qed.

Lemma preserves_try {A} P (m : pyst S E A) (h : E -> pyst S E A) :
  preserves P m -> (forall e, preserves P (h e)) -> preserves P (try_except m h).
Proof.
  intros Hm Hh s Hs. unfold try_except.
  specialize (Hm s Hs). destruct (m s) as [[a|e] s'] eqn:E1; simpl in *; auto.
  apply Hh, Hm.
Qed.
End Monad.

(** Unfold the monad's operations so that a run computes by [simpl]. *)
Ltac py_unfold :=
  unfold mbind, mret, mthrow, pyst_bind, pyst_ret, pyst_throw, get_st, modify_st in *.

Create HintDb agri.
Create Rewrite HintDb agri_run.
#[export] Hint Resolve preserves_ret preserves_throw preserves_bind
  preserves_fold_m preserves_try : agri.
#[export] Hint Rewrite @run_ret @run_bind @run_throw : agri_run.

(** One step of a [preserves] proof: split a bind, or case on the match
    or test the continuation makes. *)
Ltac preserves_step :=
  match goal with
  | |- preserves _ (mbind _ _) => apply preserves_bind; [|intros ?]
  | |- preserves _ (mret _) => apply preserves_ret
  | |- preserves _ (mthrow _) => apply preserves_throw
  | |- preserves _ (match ?x with _ => _ end) => destruct x
  end.

Ltac preserves_tac := repeat (preserves_step || eauto with agri).

(** ** Lists *)

Lemma Sorted_snoc {A} (R : A -> A -> Prop) (l : list A) (x : A) :
  Sorted R l -> Forall (fun y => R y x) l -> Sorted R (l ++ [x]).
Proof.
  induction 1 as [|a l Hl IH Hhd]; intros HF; simpl; [repeat constructor|].
  apply Forall_cons_1 in HF as [Hax HF].
  constructor; [apply IH, HF|].
  destruct l as [|b l]; simpl; constructor; [exact Hax|].
  inversion Hhd; assumption.
Qed.

(** Two lists sorted by an asymmetric relation, with the same elements,
    are equal: the order of a sorted result is determined by its content. *)
Lemma StronglySorted_eq {A} (R : A -> A -> Prop) (l1 l2 : list A) :
  (forall x y, R x y -> R y x -> False) ->
  StronglySorted R l1 -> StronglySorted R l2 -> (forall x, x ∈ l1 <-> x ∈ l2) -> l1 = l2.
Proof.
  intros Hasym. revert l2. induction l1 as [|a l1 IH]; intros [|b l2] H1 H2 Hx.
  - reflexivity.
  - exfalso. apply (not_elem_of_nil b), Hx. left.
  - exfalso. apply (not_elem_of_nil a), Hx. left.
  - apply StronglySorted_inv in H1 as [H1 Ha], H2 as [H2 Hb].
    rewrite Forall_forall in Ha, Hb.
    assert (a = b) as <-.
    { pose proof (proj1 (Hx a) ltac:(left)) as Hab. pose proof (proj2 (Hx b) ltac:(left)) as Hba.
      apply elem_of_cons in Hab as [->|Hab]; [reflexivity|].
      apply elem_of_cons in Hba as [->|Hba]; [reflexivity|].
      exfalso. apply (Hasym a b); [apply Ha | apply Hb]; apply list_elem_of_In; assumption. }
    f_equal. apply IH; [exact H1 | exact H2|]. intros x. split; intros Hin.
    + pose proof (proj1 (Hx x) ltac:(right; exact Hin)) as Hx'.
      apply elem_of_cons in Hx' as [->|Hx']; [|exact Hx'].
      exfalso. apply (Hasym a a); apply Ha, list_elem_of_In; exact Hin.
    + pose proof (proj2 (Hx x) ltac:(right; exact Hin)) as Hx'.
      apply elem_of_cons in Hx' as [->|Hx']; [|exact Hx'].
      exfalso. apply (Hasym a a); apply Hb, list_elem_of_In; exact Hin.
Qed.

Lemma StronglySorted_filter {A} (R : A -> A -> Prop) (P : A -> Prop)
    `{forall x, Decision (P x)} (l : list A) :
  StronglySorted R l -> StronglySorted R (filter P l).
Proof.
  induction 1 as [|a l Hl IH Ha]; [constructor|]. rewrite filter_cons.
  case_decide; [|exact IH]. constructor; [exact IH|].
  rewrite Forall_forall in Ha |- *. intros x Hx. apply Ha.
  apply list_elem_of_In, list_elem_of_filter in Hx. apply list_elem_of_In, Hx.
Qed.

(** A boolean check run over a finite integer range (by [vm_compute])
    gives the property at every point of the range. *)
Lemma forallb_seqZ (f : Z -> bool) (a n x : Z) :
  forallb f (seqZ a n) = true -> (a <= x < a + n)%Z -> f x = true.
Proof.
  rewrite forallb_forall. intros H Hx. apply H.
  apply list_elem_of_In, elem_of_seqZ. exact Hx.
Qed.

(** ** Rationals

    Python floats and SQL REAL values are modelled as exact rationals. *)

(** Syntactic equality of rationals (the representation, not [Qeq]). *)
#[export] Instance Q_eq_dec : EqDecision Q.
Proof. solve_decision. Defined.

Definition Qsum (l : list Q) : Q := fold_right Qplus 0%Q l.

(** The arithmetic mean, in lowest terms. *)
Definition Qmean (l : list Q) : Q := Qred (Qsum l / inject_Z (Z.of_nat (length l))).

Lemma Qfloor_between (a b : Z) (q : Q) :
  inject_Z a <= q -> q < inject_Z b -> (a <= Qfloor q < b)%Z.
Proof.
  intros Ha Hb. pose proof (Qlt_floor q). pose proof (Qfloor_le q).
  split.
  - enough (a < Qfloor q + 1)%Z by lia. rewrite Zlt_Qlt. lra.
  - rewrite Zlt_Qlt. lra.
Qed.
