(* ===== verification/Alert.v ===== *)
(** * Alert rule: [check_for_alerts] (src/AgriSense/app.py, lines 114-121)

    The rule maps a soil-moisture reading to a status text and a colour.
    The spec (section 4.4) names three tiers with closed lower bounds;
    [band] states that contract and [check_for_alerts_tier] shows the code
    implements it, boundaries included.  Moisture is a Python float, modelled
    as an exact rational: the two comparisons of the code are exact on floats
    too, so nothing is lost for this component. *)

From S2P Require Import Prelude.

Module Alert.

(** The dict [{"status": ..., "color": ...}] the function returns. *)
Record alert := mkAlert { status : string; color : string }.

#[export] Instance alert_eq_dec : EqDecision alert.
Proof. solve_decision. Defined.

Definition check_for_alerts (moisture : Q) : alert :=
  if Qlt_le_dec moisture 20 then
    {| status := "ACİL SULAMA GEREKLİ"; color := "red" |}
  else if Qlt_le_dec moisture 30 then
    {| status := "Sulama Yapılması Önerilir"; color := "orange" |}
  else
    {| status := "Normal Seviyede"; color := "green" |}.

(** ** The contract of the spec: three tiers, closed on their lower bound *)

Inductive tier := URGENT | ADVISED | NORMAL.

#[export] Instance tier_eq_dec : EqDecision tier.
Proof. solve_decision. Defined.

Definition band (t : tier) (m : Q) : Prop :=
  match t with
  | URGENT => (m < 20)%Q
  | ADVISED => (20 <= m /\ m < 30)%Q
  | NORMAL => (30 <= m)%Q
  end.

(** Which tier an alert dict stands for, read off its colour. *)
Definition tier_of (a : alert) : option tier :=
  if decide (color a = "red") then Some URGENT
  else if decide (color a = "orange") then Some ADVISED
  else if decide (color a = "green") then Some NORMAL
  else None.

(** Severity rank: a smaller rank is a more urgent tier. *)
Definition rank (t : tier) : nat :=
  match t with URGENT => 0 | ADVISED => 1 | NORMAL => 2 end.

Lemma band_unique t1 t2 m : band t1 m -> band t2 m -> t1 = t2.
Proof. destruct t1, t2; simpl; intros; try reflexivity; lra. Qed.

Lemma band_total m : exists t, band t m.
Proof.
  destruct (Qlt_le_dec m 20); [exists URGENT; exact q|].
  destruct (Qlt_le_dec m 30); [exists ADVISED; simpl; lra|].
  exists NORMAL; exact q0.
Qed.

(** The code's branches, one per tier. *)
Lemma check_for_alerts_band m :
  band URGENT m /\ check_for_alerts m = mkAlert "ACİL SULAMA GEREKLİ" "red" \/
  band ADVISED m /\ check_for_alerts m = mkAlert "Sulama Yapılması Önerilir" "orange" \/
  band NORMAL m /\ check_for_alerts m = mkAlert "Normal Seviyede" "green".
Proof.
  unfold check_for_alerts, band.
  destruct (Qlt_le_dec m 20); [left; auto|].
  destruct (Qlt_le_dec m 30); right; [left | right]; split; auto; lra.
Qed.

Lemma check_for_alerts_tier_of m t :
  tier_of (check_for_alerts m) = Some t -> band t m.
Proof.
  destruct (check_for_alerts_band m) as [[H ->]|[[H ->]|[H ->]]];
    intros E; vm_compute in E; injection E as <-; exact H.
Qed.

(** C4. The alert returned for a moisture value is the tier of the
    spec's band it lies in: below 20 urgent (red), from 20 up to 30
    advised (orange), from 30 on normal (green); every value gets one
    tier, and the lower bound of each band belongs to it. *)
Theorem check_for_alerts_tier m t :
  tier_of (check_for_alerts m) = Some t <-> band t m.
Proof.
  split; [apply check_for_alerts_tier_of|].
  intros Hb. destruct (check_for_alerts_band m) as [[H E]|[[H E]|[H E]]];
    rewrite E; rewrite (band_unique _ _ _ Hb H); reflexivity.
Qed.

(** C23. The alert is monotone in the moisture: a wetter parcel never gets
    a more urgent tier than a drier one. *)
Theorem check_for_alerts_monotone m1 m2 t1 t2 :
  (m1 <= m2)%Q ->
  tier_of (check_for_alerts m1) = Some t1 ->
  tier_of (check_for_alerts m2) = Some t2 ->
  (rank t1 <= rank t2)%nat.
Proof.
  intros Hle H1 H2.
  apply check_for_alerts_tier_of in H1, H2.
  destruct t1, t2; simpl in *; lia || lra.
Qed.

Lemma check_for_alerts_monotone_witness :
  tier_of (check_for_alerts 25) = Some ADVISED /\
  tier_of (check_for_alerts 35) = Some NORMAL /\
  (rank ADVISED <= rank NORMAL)%nat.
Proof.
  split; [reflexivity|]. split; [reflexivity|].
  apply (check_for_alerts_monotone 25 35); [lra | reflexivity | reflexivity].
Defined.

(** Equal rationals in different representations get the same alert:
    [check_for_alerts] respects [Qeq], so it can be rewritten under. *)
#[export] Instance check_for_alerts_proper :
  Proper (Qeq ==> eq) check_for_alerts.
Proof.
  intros x y Hxy.
  destruct (check_for_alerts_band x) as [[Hx ->]|[[Hx ->]|[Hx ->]]],
           (check_for_alerts_band y) as [[Hy ->]|[[Hy ->]|[Hy ->]]];
    simpl in *; first [reflexivity | exfalso; lra].
Qed.

End Alert.
