(* ===== verification/Clock.v ===== *)
(** * Time: timestamps, [DATEADD] and the ['HH:00'] hour label

    The [timestamp] column holds SQL Server datetimes; the model counts
    them in seconds ([Z]).  [get_time_series_data]
    (src/AgriSense/app.py, lines 90-101) uses two time functions:
    [DATEADD(hour, ?, GETDATE())] with the parameter [time_limit = -hours],
    and [FORMAT([timestamp], 'HH:00')], the hour of the day, zero-padded to
    two digits, followed by [":00"].  The lemmas here show that the label
    determines the hour ([parse_HH00] inverts it) and that the lexical
    order of labels, which [ORDER BY hour] uses, is the order of hours:
    this holds only because of the zero padding. *)

From S2P Require Import Prelude.

Module Clock.
Local Open Scope Z_scope.

Definition SECONDS_PER_HOUR : Z := 3600.
Definition SECONDS_PER_DAY : Z := 86400.

(** [DATEADD(hour, n, t)] *)
Definition dateadd_hour (n t : Z) : Z := t + n * SECONDS_PER_HOUR.

(** The [HH] field of a datetime: the hour of its day, 0 to 23. *)
Definition hour_of_day (t : Z) : Z := (t mod SECONDS_PER_DAY) / SECONDS_PER_HOUR.

Definition digit (d : Z) : Ascii.ascii := Ascii.ascii_of_nat (48 + Z.to_nat d).

Definition digit_val (c : Ascii.ascii) : option Z :=
  let n := Z.of_nat (Ascii.nat_of_ascii c) in
  if decide (48 <= n <= 57) then Some (n - 48) else None.

(** [FORMAT(_, 'HH:00')] on an hour: two digits, then [":00"]. *)
Definition hh_label (h : Z) : string :=
  String (digit (h / 10)) (String (digit (h mod 10)) ":00").

Definition format_HH00 (t : Z) : string := hh_label (hour_of_day t).

(** Reading an hour back from its label. *)
Definition parse_HH00 (s : string) : option Z :=
  match s with
  | String a (String b rest) =>
      if decide (rest = ":00") then
        match digit_val a, digit_val b with
        | Some x, Some y => Some (10 * x + y)
        | _, _ => None
        end
      else None
  | _ => None
  end.

Definition is_hour (h : Z) : Prop := 0 <= h < 24.

Lemma hour_of_day_range t : is_hour (hour_of_day t).
Proof.
  unfold is_hour, hour_of_day, SECONDS_PER_DAY, SECONDS_PER_HOUR.
  pose proof (Z.mod_pos_bound t 86400 ltac:(lia)).
  split; [apply Z.div_pos | apply Z.div_lt_upper_bound]; lia.
Qed.

Lemma parse_hh_label h : is_hour h -> parse_HH00 (hh_label h) = Some h.
Proof.
  intros Hh.
  pose proof (forallb_seqZ
    (fun h => match parse_HH00 (hh_label h) with Some x => x =? h | None => false end)
    0 24 h ltac:(vm_compute; reflexivity) ltac:(unfold is_hour in *; lia)) as H.
  cbv beta in H. destruct (parse_HH00 (hh_label h)); [|discriminate].
  apply Z.eqb_eq in H. congruence.
Qed.

Lemma hh_label_inj h1 h2 :
  is_hour h1 -> is_hour h2 -> hh_label h1 = hh_label h2 -> h1 = h2.
Proof.
  intros H1 H2 E. apply parse_hh_label in H1, H2. congruence.
Qed.

Lemma hh_label_length h : String.length (hh_label h) = 5%nat.
Proof. reflexivity. Qed.

(** A label denotes the hour of the day it was formatted from. *)
Lemma format_HH00_inj t1 t2 :
  format_HH00 t1 = format_HH00 t2 -> hour_of_day t1 = hour_of_day t2.
Proof. apply hh_label_inj; apply hour_of_day_range. Qed.

(** Two instants with the same hour of the day, less than a day apart,
    lie in the same clock hour. *)
Lemma hour_of_day_same_hour t1 t2 :
  hour_of_day t1 = hour_of_day t2 -> Z.abs (t1 - t2) <= 23 * SECONDS_PER_HOUR ->
  t1 / SECONDS_PER_HOUR = t2 / SECONDS_PER_HOUR.
Proof.
  unfold hour_of_day, SECONDS_PER_DAY, SECONDS_PER_HOUR. intros H Hd.
  Z.div_mod_to_equations. lia.
Qed.

(** C24. Round trip of the hour label: parsing the ['HH:00'] label of a
    timestamp gives back the hour of the day of that timestamp, and the
    label is the five characters the [NVARCHAR(5)] cast keeps whole. *)
Theorem format_HH00_roundtrip t :
  parse_HH00 (format_HH00 t) = Some (hour_of_day t) /\
  String.length (format_HH00 t) = 5%nat.
Proof.
  split; [apply parse_hh_label, hour_of_day_range | apply hh_label_length].
Qed.

(** C14. [ORDER BY hour] sorts the labels as strings; thanks to the zero
    padding this is the numeric order of the hours: for two hours of the
    day, the label of the first is lexically below the label of the second
    exactly when the first hour is smaller. *)
Theorem hh_label_order h1 h2 :
  is_hour h1 -> is_hour h2 ->
  String.ltb (hh_label h1) (hh_label h2) = Z.ltb h1 h2.
Proof.
  intros H1 H2. apply Bool.eqb_prop.
  pose proof (forallb_seqZ
    (fun h1 => forallb (fun h2 =>
       Bool.eqb (String.ltb (hh_label h1) (hh_label h2)) (Z.ltb h1 h2)) (seqZ 0 24))
    0 24 h1 ltac:(vm_compute; reflexivity) ltac:(unfold is_hour in *; lia)) as H.
  exact (forallb_seqZ _ 0 24 h2 H ltac:(unfold is_hour in *; lia)).
Qed.

Lemma hh_label_order_witness :
  String.ltb (hh_label 9) (hh_label 10) = true.
Proof. exact (hh_label_order 9 10 ltac:(unfold is_hour; lia) ltac:(unfold is_hour; lia)). Defined.

(** The order [ORDER BY hour] puts labels in, on the labels of hours. *)
Definition is_label (s : string) : Prop := exists h, is_hour h /\ s = hh_label h.

Definition label_lt (s s' : string) : Prop :=
  exists h h', is_hour h /\ is_hour h' /\ s = hh_label h /\ s' = hh_label h' /\ h < h'.

Lemma label_lt_asym s s' : label_lt s s' -> label_lt s' s -> False.
Proof.
  intros (h1 & h2 & H1 & H2 & -> & -> & Hlt) (h3 & h4 & H3 & H4 & E1 & E2 & Hlt').
  apply hh_label_inj in E1, E2; auto. lia.
Qed.

Lemma label_lt_trans s1 s2 s3 : label_lt s1 s2 -> label_lt s2 s3 -> label_lt s1 s3.
Proof.
  intros (h1 & h2 & H1 & H2 & -> & -> & Hlt) (h3 & h4 & H3 & H4 & E & -> & Hlt').
  apply hh_label_inj in E; auto. exists h1, h4. split_and!; auto. lia.
Qed.

Lemma label_lt_hours h h' : is_hour h -> is_hour h' ->
  label_lt (hh_label h) (hh_label h') <-> h < h'.
Proof.
  intros H H'. split; [|intros; exists h, h'; auto].
  intros (h1 & h2 & H1 & H2 & E1 & E2 & Hlt).
  apply hh_label_inj in E1, E2; auto. lia.
Qed.

(** Two timestamps one day apart get the same label: the grouping of the
    chart merges the same hour of different days. *)
Lemma format_HH00_next_day t : format_HH00 (t + SECONDS_PER_DAY) = format_HH00 t.
Proof.
  unfold format_HH00, hour_of_day.
  rewrite Z.add_mod, Z.mod_same, Z.add_0_r, Z.mod_mod by (unfold SECONDS_PER_DAY; lia).
  reflexivity.
Qed.

End Clock.
