(* ===== verification/Store.v ===== *)
(** * Store adapter: the [sensor_data] table and the pyodbc connection

    The world a call of the program sees: the committed rows of
    [sensor_data] in insertion order, the IDENTITY counter that numbers the
    next row, the server clock [GETDATE()], whether the server accepts
    connections and whether the table exists as the queries expect it, the
    engine's per-statement failures (an oracle: lost link, timeout,
    deadlock victim), the number of open connections, and Python's random
    stream.  A pyodbc connection is opened with autocommit off: the rows it
    inserts form its pending transaction, which [commit] appends to the
    table and which is lost if the connection is never committed.

    Operations: [get_db_connection] (src/AgriSense/app.py, lines 23-32),
    [execute] (a [cursor.execute] call), [insert_reading] (the INSERT of
    lines 49-52), [select_rows] (a SELECT, read committed), [commit] and
    [close].  The invariant [store_wf] says the ids of the table strictly
    increase and stay below the IDENTITY counter. *)

From S2P Require Import Prelude Clock.

Module Store.
Local Open Scope Z_scope.

(** A row of [sensor_data]; REAL columns may be NULL. *)
Record reading := mkReading {
  id : Z;
  parcel_id : string;
  timestamp : Z;
  soil_moisture : option Q;
  air_temp : option Q
}.

#[export] Instance reading_eq_dec : EqDecision reading.
Proof. solve_decision. Defined.

(** The exceptions the program can raise. *)
Inductive exn :=
| OperationalError           (* pyodbc: the statement failed in the engine *)
| ProgrammingError           (* pyodbc: [sensor_data] missing or malformed *)
| NameError (name : string)  (* Python: an unbound global name *)
| TypeError.                 (* Python: [None < 20.0] *)

Record store := mkStore {
  rows : list reading;
  next_id : Z;
  clock : Z;
  server_up : bool;
  table_ok : bool;
  faults : list bool
}.

Record world := mkWorld {
  db : store;
  open_conns : nat;
  rng : nat -> Q;
  rng_i : nat
}.

Abbreviation PyM := (pyst world exn).

(** [PARCELS] (line 10): the fixed, ordered list of known parcels. *)
Definition PARCELS : list string := ["Tarla A (Buğday)"; "Tarla B (Mısır)"].

Lemma PARCELS_nodup : NoDup PARCELS.
Proof. apply (bool_decide_unpack _). vm_compute. reflexivity. Qed.

Definition set_db (d : store) (w : world) : world :=
  mkWorld d (open_conns w) (rng w) (rng_i w).
Definition set_open_conns (n : nat) (w : world) : world :=
  mkWorld (db w) n (rng w) (rng_i w).
Definition set_rng_i (i : nat) (w : world) : world :=
  mkWorld (db w) (open_conns w) (rng w) i.
Definition set_rows (rs : list reading) (d : store) : store :=
  mkStore rs (next_id d) (clock d) (server_up d) (table_ok d) (faults d).
Definition set_next_id (n : Z) (d : store) : store :=
  mkStore (rows d) n (clock d) (server_up d) (table_ok d) (faults d).
Definition set_faults (fs : list bool) (d : store) : store :=
  mkStore (rows d) (next_id d) (clock d) (server_up d) (table_ok d) fs.
Definition set_clock (t : Z) (d : store) : store :=
  mkStore (rows d) (next_id d) t (server_up d) (table_ok d) (faults d).

(** A connection: the rows inserted through it and not yet committed. *)
Record conn := mkConn { txn : list reading }.

(** [get_db_connection]: [pyodbc.connect]; a [pyodbc.Error] is caught,
    printed, and turned into [None]. *)
Definition get_db_connection : PyM (option conn) := fun w =>
  if server_up (db w)
  then (Ok (Some (mkConn [])), set_open_conns (S (open_conns w)) w)
  else (Ok None, w).

(** [cursor.execute]: the engine runs one statement, or raises. *)
Definition execute : PyM unit := fun w =>
  let d := db w in
  if table_ok d then
    let w' := set_db (set_faults (drop 1 (faults d)) d) w in
    if decide (head (faults d) = Some true) then (Exc OperationalError, w')
    else (Ok tt, w')
  else (Exc ProgrammingError, w).

(** [INSERT INTO sensor_data (parcel_id, soil_moisture, air_temp)
    VALUES (?, ?, ?)]: the id comes from IDENTITY, the timestamp from
    [DEFAULT GETDATE()]. *)
Definition add_row (c : conn) (p : string) (m t : Q) : PyM conn := fun w =>
  let d := db w in
  let r := mkReading (next_id d) p (clock d) (Some m) (Some t) in
  (Ok (mkConn (txn c ++ [r])), set_db (set_next_id (next_id d + 1) d) w).

Definition insert_reading (c : conn) (p : string) (m t : Q) : PyM conn :=
  execute ≫= fun _ => add_row c p m t.

(** A SELECT: runs, then sees the committed rows. *)
Definition read_committed : PyM (list reading) := fun w => (Ok (rows (db w)), w).

Definition select_rows : PyM (list reading) :=
  execute ≫= fun _ => read_committed.

Definition commit (c : conn) : PyM conn := fun w =>
  (Ok (mkConn []), set_db (set_rows (rows (db w) ++ txn c) (db w)) w).

Definition close (c : conn) : PyM unit := fun w =>
  (Ok tt, set_open_conns (pred (open_conns w)) w).

(** ** The invariant of the table *)

Definition id_lt (a b : reading) : Prop := id a < id b.

Definition ids_ok (rs : list reading) (n : Z) : Prop :=
  Sorted id_lt rs /\ Forall (fun r => id r < n) rs.

Definition store_wf (d : store) : Prop := ids_ok (rows d) (next_id d).

(** Timestamps never decrease along the table and none is ahead of the
    server clock. *)
Definition ts_le (a b : reading) : Prop := timestamp a <= timestamp b.

Definition ts_ok (d : store) : Prop :=
  Sorted ts_le (rows d) /\ Forall (fun r => timestamp r <= clock d) (rows d).

(** While a connection is open, its pending rows follow the table's. *)
Definition conn_wf (w : world) (c : conn) : Prop :=
  ids_ok (rows (db w) ++ txn c) (next_id (db w)).

(** ** How each operation touches the table *)

(** [w'] has the same committed rows, IDENTITY counter and clock as [w]. *)
Definition same_table (w w' : world) : Prop :=
  rows (db w') = rows (db w) /\ next_id (db w') = next_id (db w) /\
  clock (db w') = clock (db w).

#[export] Instance same_table_preorder : PreOrder same_table.
Proof.
  split; [intros w; repeat split|].
  intros w1 w2 w3 (?&?&?) (?&?&?); repeat split; congruence.
Qed.

(** [w'] is reached from [w] by statements that commit nothing: only the
    IDENTITY counter, the fault oracle and the random position move. *)
Definition frame (w w' : world) : Prop :=
  rows (db w') = rows (db w) /\ clock (db w') = clock (db w) /\
  open_conns w' = open_conns w /\ rng w' = rng w /\
  server_up (db w') = server_up (db w) /\ table_ok (db w') = table_ok (db w) /\
  next_id (db w) <= next_id (db w').

#[export] Instance frame_preorder : PreOrder frame.
Proof.
  split; [intros w; unfold frame; split_and!; reflexivity || lia|].
  intros w1 w2 w3 (?&?&?&?&?&?&?) (?&?&?&?&?&?&?); unfold frame;
    split_and!; congruence || lia.
Qed.

Lemma execute_table w : same_table w (snd (execute w)) /\
  open_conns (snd (execute w)) = open_conns w /\ rng_i (snd (execute w)) = rng_i w.
Proof.
  unfold execute. destruct (table_ok (db w)); [|repeat split].
  case_decide; repeat split.
Qed.

(** A statement that the engine runs: only the fault oracle advances. *)
Lemma execute_ok w :
  table_ok (db w) = true -> head (faults (db w)) <> Some true ->
  execute w = (Ok tt, set_db (set_faults (drop 1 (faults (db w))) (db w)) w).
Proof. intros Ht Hf. unfold execute. rewrite Ht. case_decide; [congruence|reflexivity]. Qed.

Lemma execute_no_table w : table_ok (db w) = false -> execute w = (Exc ProgrammingError, w).
Proof. intros Ht. unfold execute. rewrite Ht. reflexivity. Qed.

Lemma ids_ok_mono rs n n' : ids_ok rs n -> n <= n' -> ids_ok rs n'.
Proof.
  intros [Hs Hb] Hn. split; [exact Hs|].
  eapply Forall_impl; [|exact Hb]. simpl; intros; lia.
Qed.

Lemma ids_ok_snoc rs r : ids_ok rs (id r) -> ids_ok (rs ++ [r]) (id r + 1).
Proof.
  intros [Hs Hb]. split.
  - apply Sorted_snoc; [exact Hs|]. exact Hb.
  - apply Forall_app; split; [eapply Forall_impl; [|exact Hb]; simpl; intros; lia|].
    repeat constructor. lia.
Qed.

Lemma ids_ok_app_inv rs1 rs2 n : ids_ok (rs1 ++ rs2) n -> ids_ok rs1 n.
Proof.
  intros [Hs Hb]. split; [|apply Forall_app in Hb; apply Hb]. clear Hb.
  induction rs1 as [|r rs1 IH]; [constructor|].
  simpl in Hs. apply Sorted_inv in Hs as [Hs Hh]. constructor; [apply IH, Hs|].
  destruct rs1; [constructor|]. simpl in Hh. inversion Hh. constructor; assumption.
Qed.

(** Ids are unique: the table is strictly sorted by id. *)
Lemma ids_ok_nodup rs n : ids_ok rs n -> NoDup (map id rs).
Proof.
  intros [Hs _]. apply Sorted_StronglySorted in Hs;
    [|intros a b c; unfold id_lt; lia].
  induction Hs as [|r rs Hs IH Hall]; simpl; constructor; [|exact IH].
  rewrite list_elem_of_In, in_map_iff. intros (r' & Hid & Hin).
  rewrite Forall_forall in Hall. specialize (Hall r' Hin). unfold id_lt in Hall. lia.
Qed.

Lemma insert_reading_conn_wf w c p m t c' w' :
  conn_wf w c -> insert_reading c p m t w = (Ok c', w') -> conn_wf w' c'.
Proof.
  unfold insert_reading. rewrite run_bind.
  destruct (execute_table w) as [(Hr & Hn & _) _].
  destruct (execute w) as [[[]|e] w1] eqn:E; [|discriminate].
  simpl in Hr, Hn. unfold add_row, conn_wf. intros Hwf [= <- <-]. simpl.
  rewrite app_assoc, Hr, Hn. apply (ids_ok_snoc _ (mkReading _ _ _ _ _)). exact Hwf.
Qed.

Lemma insert_reading_next_id w c p m t :
  next_id (db w) <= next_id (db (snd (insert_reading c p m t w))) /\
  rows (db (snd (insert_reading c p m t w))) = rows (db w) /\
  open_conns (snd (insert_reading c p m t w)) = open_conns w.
Proof.
  unfold insert_reading. rewrite run_bind.
  destruct (execute_table w) as [(Hr & Hn & _) [Ho _]].
  destruct (execute w) as [[[]|e] w1] eqn:E; simpl in *; split_and!; lia || congruence.
Qed.

Lemma commit_store_wf w c : conn_wf w c -> store_wf (db (snd (commit c w))).
Proof. intros H. exact H. Qed.

(** ** Reads leave the table alone *)

Lemma get_db_connection_reads w0 : preserves (same_table w0) get_db_connection.
Proof. intros w H. unfold get_db_connection. destruct (server_up (db w)); exact H. Qed.

Lemma execute_reads w0 : preserves (same_table w0) execute.
Proof.
  intros w H. unfold execute. destruct (table_ok (db w)); [case_decide|]; exact H.
Qed.

Lemma read_committed_reads w0 : preserves (same_table w0) read_committed.
Proof. intros w H. exact H. Qed.

Lemma close_reads w0 c : preserves (same_table w0) (close c).
Proof. intros w H. exact H. Qed.

Lemma get_st_reads w0 : preserves (same_table w0) (get_st : PyM world).
Proof. intros w H. exact H. Qed.

#[export] Hint Resolve get_db_connection_reads execute_reads read_committed_reads
  close_reads get_st_reads : agri.

Lemma select_rows_reads w0 : preserves (same_table w0) select_rows.
Proof. unfold select_rows. preserves_tac. Qed.

#[export] Hint Resolve select_rows_reads : agri.

(** A world for concrete runs: the given rows, the IDENTITY counter past
    them, the clock at [t], the server up, no failing statement, and a
    random stream that always yields one half. *)
Definition demo_world (rs : list reading) (t : Z) : world :=
  mkWorld (mkStore rs (Z.of_nat (length rs) + 1) t true true []) 0 (fun _ => 1 # 2) 0.

End Store.
