(* ===== verification/Schema.v ===== *)
(** * Schema bootstrap: [create_database] (src/AgriSense/db_setup.py)

    The script opens the SQLite file [agrisense.db] (creating an empty
    database file when there is none), runs
    [CREATE TABLE IF NOT EXISTS sensor_data (...)], commits, closes, and
    catches every [sqlite3.Error] of these steps.  Its [__main__] block
    tests [os.path.exists(DATABASE)] and does nothing with the answer
    ([os.remove] is commented out), then calls [create_database].

    The world is the file system as the script sees it: the database file
    when it exists (with the table's rows when the table exists), whether
    the file can be created, the engine's per-statement failures (an
    oracle, like [Store.faults]), and the open connections.  Python's
    [sqlite3] runs DDL outside any implicit transaction (since Python 3.6),
    so the table exists as soon as the statement succeeds and [commit] has
    nothing to commit.  The model has one error type, [sqlite3.Error]:
    an exception of another class (a [UnicodeEncodeError] from the
    [print] of line 34 on a console that cannot print its emoji) would
    escape the [except], and is not modelled.  This database is not the SQL Server database
    [app.py] uses: see the header of [Prelude]. *)

From S2P Require Import Prelude Store.

Module Schema.
Import Store.

(** [DATABASE = 'agrisense.db'] *)
Definition DATABASE : string := "agrisense.db".

(** An SQLite database file: [sensor_data] with its rows, once created. *)
Record sqlite_db := mkSqliteDb { sensor_table : option (list reading) }.

Record fs := mkFs {
  agrisense_db : option sqlite_db;  (* the file [DATABASE], if it exists *)
  can_create : bool;                (* the file may be created *)
  sq_faults : list bool;            (* [true]: the next statement fails *)
  sq_conns : nat                    (* open [sqlite3] connections *)
}.

(** [sqlite3.Error] and its subclasses. *)
Inductive sqlite_error := SqliteError.

Abbreviation SqM := (pyst fs sqlite_error).

(** [sqlite3.connect(DATABASE)]: opens the file, creating an empty
    database when it does not exist; fails when it cannot be created. *)
Definition sqlite3_connect : SqM unit := fun s =>
  match agrisense_db s with
  | Some _ => (Ok tt, mkFs (agrisense_db s) (can_create s) (sq_faults s) (S (sq_conns s)))
  | None =>
      if can_create s
      then (Ok tt, mkFs (Some (mkSqliteDb None)) (can_create s) (sq_faults s) (S (sq_conns s)))
      else (Exc SqliteError, s)
  end.

(** The effect of [CREATE TABLE IF NOT EXISTS sensor_data (...)]. *)
Definition create_table_if_not_exists (d : sqlite_db) : sqlite_db :=
  match sensor_table d with
  | None => mkSqliteDb (Some [])
  | Some _ => d
  end.

(** [cursor.execute(CREATE TABLE IF NOT EXISTS ...)]: a failing statement
    changes nothing. *)
Definition execute_create : SqM unit := fun s =>
  let s' := mkFs (agrisense_db s) (can_create s) (drop 1 (sq_faults s)) (sq_conns s) in
  if decide (head (sq_faults s) = Some true) then (Exc SqliteError, s')
  else (Ok tt, mkFs (fmap create_table_if_not_exists (agrisense_db s)) (can_create s)
                    (drop 1 (sq_faults s)) (sq_conns s)).

(** [conn.commit()]: no transaction is open after a DDL statement. *)
Definition sq_commit : SqM unit := mret tt.

(** [conn.close()] *)
Definition sq_close : SqM unit :=
  modify_st (fun s => mkFs (agrisense_db s) (can_create s) (sq_faults s) (pred (sq_conns s))).

Local Open Scope agri_scope.

(** [create_database()]; the [print] calls are not modelled. *)
Definition create_database : SqM unit :=
  try:
    (sqlite3_connect ≫= fun _ =>
     execute_create ≫= fun _ =>
     sq_commit ≫= fun _ =>
     sq_close)
  except: (fun _ => mret tt).

Local Close Scope agri_scope.

(** The table after one successful run: the old one, or a new empty one. *)
Definition table_after (s : fs) : list reading :=
  match agrisense_db s with
  | Some {| sensor_table := Some rs |} => rs
  | _ => []
  end.

(** Every run of [create_database], on every branch. *)
Lemma create_database_run s :
  create_database s =
    match agrisense_db s, can_create s with
    | None, false => (Ok tt, s)
    | _, _ =>
        if decide (head (sq_faults s) = Some true)
        then (Ok tt, mkFs (Some (default (mkSqliteDb None) (agrisense_db s))) (can_create s)
                          (drop 1 (sq_faults s)) (S (sq_conns s)))
        else (Ok tt, mkFs (Some (mkSqliteDb (Some (table_after s)))) (can_create s)
                          (drop 1 (sq_faults s)) (sq_conns s))
    end.
Proof.
  destruct s as [[[[rs|]]|] [|] fl n]; unfold create_database, table_after; simpl;
    py_unfold; unfold try_except, sqlite3_connect, execute_create, sq_commit, sq_close;
    simpl; repeat case_decide; reflexivity.
Qed.

(** ** Properties *)

(** C25. A failing [CREATE TABLE] is caught and leaks the connection:
    when the DDL statement raises and the file exists or can be created,
    [create_database] returns normally, the file exists with its table as
    it was (none is created), and the connection opened by
    [sqlite3.connect] stays open, since [conn.close()] is inside the [try]
    and is skipped. *)
Theorem create_database_ddl_error s :
  head (sq_faults s) = Some true -> (agrisense_db s <> None \/ can_create s = true) ->
  create_database s =
    (Ok tt, mkFs (Some (default (mkSqliteDb None) (agrisense_db s))) (can_create s)
                 (drop 1 (sq_faults s)) (S (sq_conns s))).
Proof.
  intros Hf Hc. rewrite create_database_run, decide_True by exact Hf.
  destruct (agrisense_db s), (can_create s); try reflexivity.
  destruct Hc as [Hc|Hc]; congruence.
Qed.

(** C26. The bootstrap never destroys data: when [sensor_data] exists,
    its rows are kept whatever fails ([IF NOT EXISTS], and the removal of
    the old file is commented out). *)
Theorem create_database_keeps_rows s rs :
  agrisense_db s = Some (mkSqliteDb (Some rs)) ->
  agrisense_db (snd (create_database s)) = Some (mkSqliteDb (Some rs)).
Proof.
  intros E. rewrite create_database_run, E. unfold table_after. rewrite E.
  destruct (can_create s); case_decide; reflexivity.
Qed.

(** C27. When the first statement does not fail and the file exists or can
    be created, the bootstrap leaves the table in place: the old rows when
    it existed, an empty table otherwise, and every connection closed. *)
Theorem create_database_creates s :
  head (sq_faults s) <> Some true ->
  (agrisense_db s <> None \/ can_create s = true) ->
  agrisense_db (snd (create_database s)) = Some (mkSqliteDb (Some (table_after s))) /\
  sq_conns (snd (create_database s)) = sq_conns s.
Proof.
  intros Hf Hc. rewrite create_database_run.
  destruct (agrisense_db s) eqn:E, (can_create s);
    try (destruct Hc as [Hc|Hc]; congruence);
    case_decide; try contradiction; auto.
Qed.

(** A fresh directory. *)
Definition fresh_fs : fs := mkFs None true [] 0.

Lemma create_database_creates_witness :
  head (sq_faults fresh_fs) <> Some true /\
  agrisense_db (snd (create_database fresh_fs)) =
    Some (mkSqliteDb (Some (table_after fresh_fs))) /\
  sq_conns (snd (create_database fresh_fs)) = sq_conns fresh_fs.
Proof.
  split; [discriminate|]. apply create_database_creates; [discriminate | right; reflexivity].
Defined.

Lemma create_database_keeps_rows_witness :
  agrisense_db (snd (create_database (mkFs (Some (mkSqliteDb (Some [])))
                                           false [true] 0))) =
    Some (mkSqliteDb (Some [])).
Proof. apply create_database_keeps_rows. reflexivity. Defined.

Lemma create_database_ddl_error_witness :
  create_database (mkFs None true [true] 0) =
    (Ok tt, mkFs (Some (default (mkSqliteDb None) None)) true [] 1).
Proof. apply create_database_ddl_error; [reflexivity | right; reflexivity]. Defined.

End Schema.
