(* ===== verification/Ingestion.v ===== *)
(** * Ingestion job: [simulate_and_insert_data] (src/AgriSense/app.py, lines 34-56)

    One tick opens a connection (or returns when the server is
    unreachable), draws for every parcel of [PARCELS] a moisture
    [round(random.uniform(15.0, 50.0), 2)] and a temperature
    [round(random.uniform(18.0, 35.0), 2)], inserts one row per parcel
    through the one connection, commits, closes, and then evaluates the
    f-string of line 56, whose [datetime.now()] names a module the file
    never imports: the tick ends with [NameError] after the commit.

    [random.random()] is Python's random stream, modelled as the world's
    [rng] read at the position [rng_i]; [random.uniform] is CPython's
    [a + (b - a) * random()] and [round(x, 2)] rounds half to even at two
    decimals, both on exact rationals. *)

From S2P Require Import Prelude Store.

Module Ingestion.
Import Store.

(** [random.random()]: the next number of the stream. *)
Definition random_random : PyM Q := fun w =>
  (Ok (rng w (rng_i w)), set_rng_i (S (rng_i w)) w).

(** [random.uniform(a, b)]. *)
Definition uniform (a b : Q) : PyM Q :=
  random_random ≫= fun u => mret (a + (b - a) * u).

(** Rounding to the nearest integer, ties to the even one. *)
Definition round_half_even (q : Q) : Z :=
  let f := Qfloor q in
  match Qcompare (q - inject_Z f) (1 # 2) with
  | Lt => f
  | Gt => (f + 1)%Z
  | Eq => if Z.even f then f else (f + 1)%Z
  end.

Fixpoint pow10 (n : nat) : positive :=
  match n with O => 1%positive | S n' => (10 * pow10 n')%positive end.

(** [round(x, ndigits)]. *)
Definition py_round (x : Q) (ndigits : nat) : Q :=
  round_half_even (x * inject_Z (Zpos (pow10 ndigits))) # pow10 ndigits.

(** The body of the loop of lines 42-52, for one parcel. *)
Definition insert_parcel (conn : conn) (parcel_id : string) : PyM Store.conn :=
  uniform 15 50 ≫= fun m =>
  let moisture := py_round m 2 in
  uniform 18 35 ≫= fun t =>
  let temp := py_round t 2 in
  insert_reading conn parcel_id moisture temp.

Definition simulate_and_insert_data : PyM unit :=
  get_db_connection ≫= fun oc =>
  match oc with
  | None => mret tt
  | Some conn =>
      fold_m insert_parcel conn PARCELS ≫= fun conn =>
      commit conn ≫= fun conn =>
      close conn ≫= fun _ =>
      mthrow (NameError "datetime")
  end.

(** ** Rounding and ranges *)

Definition rng_ok (w : world) : Prop := forall i, (0 <= rng w i < 1)%Q.

Lemma round_half_even_floor q :
  (Qfloor q <= round_half_even q <= Qfloor q + 1)%Z.
Proof.
  unfold round_half_even.
  destruct (Qcompare _ _); [destruct (Z.even _)|..]; lia.
Qed.

Lemma round_half_even_between (a b : Z) q :
  inject_Z a <= q -> q < inject_Z b -> (a <= round_half_even q <= b)%Z.
Proof.
  intros Ha Hb. pose proof (Qfloor_between a b q Ha Hb).
  pose proof (round_half_even_floor q). lia.
Qed.

(** [round(x, n)] of a value in [[a, b)] lies in [[a, b]]: rounding may
    reach the excluded upper end, never leave the range. *)
Lemma py_round_between (a b : Z) x n :
  inject_Z a <= x < inject_Z b -> inject_Z a <= py_round x n <= inject_Z b.
Proof.
  intros [Ha Hb]. unfold py_round. set (p := pow10 n).
  assert (Hp : 0 < inject_Z (Zpos p)) by (unfold Qlt; simpl; lia).
  assert (H1 : inject_Z (a * Zpos p) <= x * inject_Z (Zpos p)).
  { rewrite inject_Z_mult. apply Qmult_le_compat_r; lra. }
  assert (H2 : x * inject_Z (Zpos p) < inject_Z (b * Zpos p)).
  { rewrite inject_Z_mult. apply Qmult_lt_compat_r; lra. }
  pose proof (round_half_even_between _ _ _ H1 H2) as Hr.
  unfold Qle; simpl. lia.
Qed.

(** [round(random.uniform(a, b), n)] lies in [[a, b]]. *)
Lemma draw_between (a b : Z) (u : Q) n :
  (a < b)%Z -> (0 <= u < 1)%Q ->
  inject_Z a <= py_round (inject_Z a + (inject_Z b - inject_Z a) * u) n <= inject_Z b.
Proof.
  intros Hab Hu. apply py_round_between.
  rewrite Zlt_Qlt in Hab. split; nra.
Qed.

(** ** One parcel *)

(** The row a tick writes for parcel [p], numbered [n], at time [t]. *)
Definition tick_row (n t : Z) (p : string) (r : reading) : Prop :=
  id r = n /\ parcel_id r = p /\ timestamp r = t.

Definition in_range (r : reading) : Prop :=
  (exists m, soil_moisture r = Some m /\ 15 <= m <= 50) /\
  (exists a, air_temp r = Some a /\ 18 <= a <= 35).

Fixpoint tick_rows (n t : Z) (ps : list string) (rs : list reading) : Prop :=
  match ps, rs with
  | [], [] => True
  | p :: ps', r :: rs' => tick_row n t p r /\ tick_rows (n + 1)%Z t ps' rs'
  | _, _ => False
  end.

Lemma insert_parcel_run c p w :
  match insert_parcel c p w with
  | (Ok c', w') =>
      (exists r, txn c' = txn c ++ [r] /\ tick_row (next_id (db w)) (clock (db w)) p r /\
         (rng_ok w -> in_range r)) /\
      next_id (db w') = (next_id (db w) + 1)%Z /\ frame w w'
  | (Exc e, w') => (e = ProgrammingError \/ e = OperationalError) /\ frame w w'
  end.
Proof.
  unfold insert_parcel, uniform, random_random, insert_reading, execute, add_row.
  py_unfold. simpl. destruct (table_ok (db w)) eqn:Ht;
    [destruct (faults (db w)) as [|[|] fs] eqn:Hf|]; simpl.
  all: try (split; [auto|]; unfold frame; simpl; split_and!; reflexivity || lia).
  all: split; [|split; [reflexivity|unfold frame; simpl; split_and!; reflexivity || lia]].
  all: eexists; split; [reflexivity|]; split; [unfold tick_row; simpl; auto|].
  all: intros Hr; split; eexists; (split; [reflexivity|]).
  all: apply (draw_between _ _ _ 2); [lia | apply Hr].
Qed.

Lemma rng_ok_frame w w' : frame w w' -> rng_ok w -> rng_ok w'.
Proof. intros (_&_&_&Hr&_) H i. rewrite Hr. apply H. Qed.

(** ** The loop over the parcels *)

Lemma fold_insert_run ps c w :
  match fold_m insert_parcel c ps w with
  | (Ok c', w') =>
      (exists new, txn c' = txn c ++ new /\
         tick_rows (next_id (db w)) (clock (db w)) ps new /\
         (rng_ok w -> Forall in_range new)) /\
      next_id (db w') = (next_id (db w) + Z.of_nat (length ps))%Z /\ frame w w'
  | (Exc e, w') => (e = ProgrammingError \/ e = OperationalError) /\ frame w w'
  end.
Proof.
  revert c w. induction ps as [|p ps IH]; intros c w; simpl.
  - split; [exists []; rewrite app_nil_r; auto|]. split; [lia|reflexivity].
  - rewrite run_bind. pose proof (insert_parcel_run c p w) as H1.
    destruct (insert_parcel c p w) as [[c1|e] w1]; [|exact H1].
    destruct H1 as [(r & Hc1 & Hr & Hin) [Hn1 Hf1]].
    specialize (IH c1 w1).
    destruct (fold_m insert_parcel c1 ps w1) as [[c2|e] w2].
    + destruct IH as [(new & Hc2 & Hnew & Hin') [Hn2 Hf2]].
      destruct Hf1 as (Hrows & Hclock & Hf1'). 
      split; [|split; [lia | etransitivity; [split; [exact Hrows|split; [exact Hclock|exact Hf1']]|exact Hf2]]].
      exists (r :: new). rewrite Hc2, Hc1, <- app_assoc. split; [reflexivity|].
      split; [simpl; rewrite <- Hn1; rewrite Hclock in Hnew; split; assumption|].
      intros Hok. constructor; [auto|]. apply Hin'.
      eapply rng_ok_frame; [split; [exact Hrows|split; [exact Hclock|exact Hf1']]|exact Hok].
    + destruct IH as [He Hf2]. split; [exact He|]. etransitivity; eauto.
Qed.

(** The engine fails none of the next [n] statements. *)
Definition no_fault (n : nat) (fs : list bool) : Prop :=
  Forall (fun b => b = false) (take n fs).

Lemma insert_parcel_faults c p w :
  table_ok (db w) = true -> head (faults (db w)) <> Some true ->
  exists c' w', insert_parcel c p w = (Ok c', w') /\
    faults (db w') = drop 1 (faults (db w)) /\ table_ok (db w') = true.
Proof.
  intros Ht Hh.
  unfold insert_parcel, uniform, random_random, insert_reading, execute, add_row.
  py_unfold. simpl. rewrite Ht.
  destruct (faults (db w)) as [|[|] fs] eqn:Hf; simpl in *;
    [|congruence|]; do 2 eexists; split_and!; try reflexivity; simpl; rewrite ?Hf; auto.
Qed.

(** With the table in place and no failing statement, the loop runs to
    its end. *)
Lemma fold_insert_total ps c w :
  table_ok (db w) = true -> no_fault (length ps) (faults (db w)) ->
  exists c' w', fold_m insert_parcel c ps w = (Ok c', w').
Proof.
  revert c w. induction ps as [|p ps IH]; intros c w Ht Hnf; simpl; [eauto|].
  unfold no_fault in Hnf.
  destruct (faults (db w)) as [|b fs] eqn:Hf.
  - destruct (insert_parcel_faults c p w Ht) as (c1 & w1 & E & Hf1 & Ht1);
      [rewrite Hf; discriminate|].
    rewrite run_bind, E. apply IH; [exact Ht1|]. rewrite Hf1, Hf. simpl. destruct (length ps); constructor.
  - simpl in Hnf. apply Forall_cons_1 in Hnf as [-> Hnf].
    destruct (insert_parcel_faults c p w Ht) as (c1 & w1 & E & Hf1 & Ht1);
      [rewrite Hf; discriminate|].
    rewrite run_bind, E. apply IH; [exact Ht1|]. rewrite Hf1, Hf. exact Hnf.
Qed.

Lemma fold_insert_quiet ps c w :
  table_ok (db w) = true -> faults (db w) = [] ->
  exists c' w', fold_m insert_parcel c ps w = (Ok c', w') /\
    faults (db w') = [] /\ table_ok (db w') = true.
Proof.
  revert c w. induction ps as [|p ps IH]; intros c w Ht Hf; simpl; [eauto|].
  destruct (insert_parcel_faults c p w Ht) as (c1 & w1 & E & Hf1 & Ht1); [rewrite Hf; discriminate|].
  rewrite run_bind, E. apply IH; [exact Ht1|]. rewrite Hf1, Hf. reflexivity.
Qed.

Lemma tick_rows_parcels n t ps new x :
  tick_rows n t ps new -> In x new -> In (parcel_id x) ps.
Proof.
  revert n new. induction ps as [|p ps IH]; intros n [|r new] H Hx; simpl in *; try contradiction.
  destruct H as [(_ & Hp & _) H]. destruct Hx as [<-|Hx]; [left; symmetry; exact Hp|].
  right. exact (IH _ _ H Hx).
Qed.

(** The one row a tick writes for a parcel of the list. *)
Lemma tick_rows_find n t ps new p :
  tick_rows n t ps new -> NoDup ps -> In p ps ->
  exists r, In r new /\ parcel_id r = p /\ timestamp r = t /\ (n <= id r)%Z /\
    forall x, In x new -> parcel_id x = p -> x = r.
Proof.
  revert n new. induction ps as [|p0 ps IH]; intros n [|r0 new] H Hnd Hp; simpl in *;
    try contradiction.
  destruct H as [(Hid & Hp0 & Hts) H]. apply list.NoDup_cons in Hnd as [Hnin Hnd'].
  destruct (decide (p0 = p)) as [<-|Hne].
  - exists r0. split_and!; auto; [lia|]. intros x [<-|Hx] Hxp; [reflexivity|].
    exfalso. apply Hnin, list_elem_of_In. rewrite <- Hxp. exact (tick_rows_parcels _ _ _ _ _ H Hx).
  - destruct Hp as [->|Hp]; [contradiction|].
    destruct (IH _ _ H Hnd' Hp) as (r & Hr & Hrp & Hrt & Hrid & Huniq).
    exists r. split_and!; auto; [lia|]. intros x [<-|Hx] Hxp; [congruence|auto].
Qed.

(** ** A whole tick *)

(** Every outcome of [simulate_and_insert_data]. *)
Lemma simulate_run w :
  match simulate_and_insert_data w with
  | (Ok _, w') => server_up (db w) = false /\ w' = w
  | (Exc (NameError _), w') =>
      server_up (db w) = true /\
      (exists new, rows (db w') = rows (db w) ++ new /\
         tick_rows (next_id (db w)) (clock (db w)) PARCELS new /\
         (rng_ok w -> Forall in_range new)) /\
      next_id (db w') = (next_id (db w) + Z.of_nat (length PARCELS))%Z /\
      open_conns w' = open_conns w /\ clock (db w') = clock (db w)
  | (Exc e, w') =>
      server_up (db w) = true /\ (e = ProgrammingError \/ e = OperationalError) /\
      frame (set_open_conns (S (open_conns w)) w) w'
  end.
Proof.
  unfold simulate_and_insert_data. rewrite run_bind. unfold get_db_connection.
  destruct (server_up (db w)) eqn:Hup; [|split; reflexivity].
  rewrite run_bind.
  pose proof (fold_insert_run PARCELS (mkConn []) (set_open_conns (S (open_conns w)) w)) as H.
  destruct (fold_m _ _ _ _) as [[c'|e] w'].
  - destruct H as [(new & Hc & Htick & Hin) [Hn (Hr & Hcl & Ho & Hrng & _)]].
    simpl in *. split; [reflexivity|]. split; [|split_and!; [exact Hn|rewrite Ho; reflexivity|exact Hcl]].
    exists new. rewrite Hr, Hc. split; [reflexivity|]. split; [exact Htick|].
    exact Hin.
  - destruct H as [[-> | ->] Hf]; (split; [reflexivity|]); auto.
Qed.

Lemma tick_rows_length n t ps new : tick_rows n t ps new -> length new = length ps.
Proof.
  revert n new. induction ps as [|p ps IH]; intros n [|r new] H; simpl in *;
    try contradiction; auto.
  f_equal. apply (IH (n + 1)%Z), H.
Qed.

Lemma tick_rows_ids_ok rs n t ps new :
  ids_ok rs n -> tick_rows n t ps new -> ids_ok (rs ++ new) (n + Z.of_nat (length ps)).
Proof.
  revert rs n new. induction ps as [|p ps IH]; intros rs n [|r new] Hok H;
    simpl in *; try contradiction.
  - rewrite app_nil_r. replace (n + Z.of_nat 0)%Z with n by lia. exact Hok.
  - destruct H as [(Hid & _ & _) H].
    replace (rs ++ r :: new) with ((rs ++ [r]) ++ new) by (rewrite <- app_assoc; reflexivity).
    replace (n + Z.of_nat (S (length ps)))%Z with (n + 1 + Z.of_nat (length ps))%Z by lia.
    refine (IH _ _ _ _ H). rewrite <- Hid. apply ids_ok_snoc. rewrite Hid. exact Hok.
Qed.

(** A tick on a store that does not fail. *)
Lemma simulate_quiet w :
  server_up (db w) = true -> table_ok (db w) = true -> faults (db w) = [] ->
  let w' := snd (simulate_and_insert_data w) in
  fst (simulate_and_insert_data w) = Exc (NameError "datetime") /\
  (exists new, rows (db w') = rows (db w) ++ new /\
     tick_rows (next_id (db w)) (clock (db w)) PARCELS new) /\
  server_up (db w') = true /\ table_ok (db w') = true /\ faults (db w') = [] /\
  clock (db w') = clock (db w) /\ open_conns w' = open_conns w.
Proof.
  intros Hup Ht Hf. pose proof (simulate_run w) as H.
  destruct (fold_insert_quiet PARCELS (mkConn []) (set_open_conns (S (open_conns w)) w) Ht Hf)
    as (c' & w1 & E & Hf1 & Ht1).
  pose proof (fold_insert_run PARCELS (mkConn []) (set_open_conns (S (open_conns w)) w)) as HF.
  rewrite E in HF. destruct HF as [_ [_ (_ & _ & _ & _ & Hup1 & _)]].
  assert (Hsim : simulate_and_insert_data w =
    (Exc (NameError "datetime"),
     snd (close (mkConn []) (snd (commit c' w1))))).
  { unfold simulate_and_insert_data. rewrite run_bind. unfold get_db_connection.
    rewrite Hup, run_bind, E. reflexivity. }
  rewrite Hsim in H |- *. simpl in *.
  destruct H as [_ [(new & Hr & Htick & _) (_ & Ho & Hc)]].
  split; [reflexivity|]. split; [eauto|]. split_and!; auto. congruence.
Qed.

(** C1. A tick against a reachable store with its table in place, whose
    statements all succeed, appends exactly one row per parcel of
    [PARCELS], in the list's order, numbered on from the IDENTITY counter
    and stamped with the server clock: the row count grows by
    [len(PARCELS)].  The commit and close happen, and then the tick raises
    [NameError] on [datetime], which [app.py] never imports. *)
Theorem simulate_and_insert_data_commits w :
  server_up (db w) = true -> table_ok (db w) = true ->
  no_fault (length PARCELS) (faults (db w)) ->
  fst (simulate_and_insert_data w) = Exc (NameError "datetime") /\
  (exists new, rows (db (snd (simulate_and_insert_data w))) = rows (db w) ++ new /\
     tick_rows (next_id (db w)) (clock (db w)) PARCELS new) /\
  length (rows (db (snd (simulate_and_insert_data w)))) =
    (length (rows (db w)) + length PARCELS)%nat /\
  open_conns (snd (simulate_and_insert_data w)) = open_conns w.
Proof.
  intros Hup Ht Hnf. pose proof (simulate_run w) as H.
  destruct (fold_insert_total PARCELS (mkConn []) (set_open_conns (S (open_conns w)) w) Ht Hnf)
    as (c' & w' & E).
  assert (Hsim : fst (simulate_and_insert_data w) = Exc (NameError "datetime")).
  { unfold simulate_and_insert_data. rewrite run_bind. unfold get_db_connection.
    rewrite Hup, run_bind, E. reflexivity. }
  destruct (simulate_and_insert_data w) as [r w'']. simpl in Hsim |- *. subst r.
  destruct H as [_ [(new & Hr & Htick & _) (_ & Ho & _)]].
  split; [reflexivity|]. split; [eauto|]. split; [|exact Ho].
  rewrite Hr, length_app, (tick_rows_length _ _ _ _ Htick). reflexivity.
Qed.

Lemma simulate_and_insert_data_commits_witness :
  fst (simulate_and_insert_data (demo_world [] 36000)) = Exc (NameError "datetime") /\
  (exists new, rows (db (snd (simulate_and_insert_data (demo_world [] 36000)))) =
     rows (db (demo_world [] 36000)) ++ new /\
     tick_rows (next_id (db (demo_world [] 36000))) (clock (db (demo_world [] 36000)))
       PARCELS new) /\
  length (rows (db (snd (simulate_and_insert_data (demo_world [] 36000))))) =
    (length (rows (db (demo_world [] 36000))) + length PARCELS)%nat /\
  open_conns (snd (simulate_and_insert_data (demo_world [] 36000))) =
    open_conns (demo_world [] 36000).
Proof.
  apply simulate_and_insert_data_commits; [reflexivity | reflexivity | constructor].
Defined.

(** C7. A tick is all or nothing: whatever the store does, after it the
    table is either unchanged or has gained exactly one new row per parcel
    of [PARCELS].  The inserts of a tick share one transaction, which is
    committed once after the loop; a statement that fails mid-batch leaves
    the transaction uncommitted, and none of its rows reach the table. *)
Theorem simulate_and_insert_data_atomic w :
  rows (db (snd (simulate_and_insert_data w))) = rows (db w) \/
  exists new, rows (db (snd (simulate_and_insert_data w))) = rows (db w) ++ new /\
    tick_rows (next_id (db w)) (clock (db w)) PARCELS new.
Proof.
  pose proof (simulate_run w) as H.
  destruct (simulate_and_insert_data w) as [[[]|[| |n|]] w']; simpl;
    try (destruct H as (_ & _ & Hr & _); left; exact Hr).
  - destruct H as [_ ->]. left. reflexivity.
  - destruct H as (_ & (new & Hr & Ht & _) & _). right. eauto.
Qed.

(** C12. Every row a tick adds has a moisture in [[15, 50]] and a
    temperature in [[18, 35]]: [round(uniform(a, b), 2)] may reach the
    upper end [b] by rounding, never leave the range. *)
Theorem simulate_and_insert_data_ranges w :
  rng_ok w ->
  Forall in_range (drop (length (rows (db w))) (rows (db (snd (simulate_and_insert_data w))))).
Proof.
  intros Hok. pose proof (simulate_run w) as H.
  destruct (simulate_and_insert_data w) as [[[]|[| |n|]] w']; simpl;
    try (destruct H as (_ & _ & Hr & _); rewrite Hr, drop_all; constructor).
  - destruct H as [_ ->]. rewrite drop_all. constructor.
  - destruct H as (_ & (new & Hr & _ & Hin) & _).
    rewrite Hr, drop_app_length. apply Hin, Hok.
Qed.

Lemma simulate_and_insert_data_ranges_witness :
  Forall in_range (drop (length (rows (db (demo_world [] 36000))))
    (rows (db (snd (simulate_and_insert_data (demo_world [] 36000)))))).
Proof.
  apply simulate_and_insert_data_ranges. intros i. simpl. lra.
Defined.

(** C17. Against an unreachable server a tick does nothing and returns
    normally: [get_db_connection] catches the pyodbc error and the job
    returns before touching the store. *)
Theorem simulate_and_insert_data_unreachable w :
  server_up (db w) = false -> simulate_and_insert_data w = (Ok tt, w).
Proof.
  intros Hup. unfold simulate_and_insert_data. rewrite run_bind.
  unfold get_db_connection. rewrite Hup. reflexivity.
Qed.

Lemma simulate_and_insert_data_unreachable_witness :
  simulate_and_insert_data (set_db (mkStore [] 1 0 false true []) (demo_world [] 0)) =
    (Ok tt, set_db (mkStore [] 1 0 false true []) (demo_world [] 0)).
Proof. apply simulate_and_insert_data_unreachable. reflexivity. Defined.

Lemma simulate_store_wf w :
  store_wf (db w) -> store_wf (db (snd (simulate_and_insert_data w))).
Proof.
  unfold store_wf. intros Hwf. pose proof (simulate_run w) as H.
  destruct (simulate_and_insert_data w) as [[[]|[| |n|]] w']; simpl;
    try (destruct H as (_ & _ & Hr & _ & _ & _ & _ & _ & Hn); simpl in Hn;
         rewrite Hr; eapply ids_ok_mono; [exact Hwf | exact Hn]).
  - destruct H as [_ ->]. exact Hwf.
  - destruct H as (_ & (new & Hr & Ht & _) & Hn & _).
    rewrite Hr, Hn. eapply tick_rows_ids_ok; eauto.
Qed.

(** C18. When the table is missing (the schema script of the repository
    creates it in a SQLite file, not in the SQL Server database the app
    opens), a tick raises [ProgrammingError] out of [cursor.execute]: the
    error is not turned into an absent result, and the connection opened
    for the tick is left open. *)
Theorem simulate_and_insert_data_no_table w :
  server_up (db w) = true -> table_ok (db w) = false ->
  fst (simulate_and_insert_data w) = Exc ProgrammingError /\
  rows (db (snd (simulate_and_insert_data w))) = rows (db w) /\
  open_conns (snd (simulate_and_insert_data w)) = S (open_conns w).
Proof.
  intros Hup Ht. unfold simulate_and_insert_data. rewrite run_bind.
  unfold get_db_connection. rewrite Hup. simpl. rewrite run_bind.
  unfold insert_parcel, uniform, random_random, insert_reading, execute.
  py_unfold. simpl. rewrite Ht. simpl. auto.
Qed.

Lemma simulate_and_insert_data_no_table_witness :
  let w := set_db (mkStore [] 1 0 true false []) (demo_world [] 0) in
  fst (simulate_and_insert_data w) = Exc ProgrammingError /\
  rows (db (snd (simulate_and_insert_data w))) = rows (db w) /\
  open_conns (snd (simulate_and_insert_data w)) = S (open_conns w).
Proof. apply simulate_and_insert_data_no_table; reflexivity. Defined.

End Ingestion.
