(* ===== verification/Query.v ===== *)
(** * Query layer: [get_latest_data] and [get_time_series_data]

    [get_latest_data] (src/AgriSense/app.py, lines 59-79) runs
    [SELECT TOP 1 * FROM sensor_data WHERE parcel_id = ? ORDER BY
    [timestamp] DESC].  Which row the engine returns among rows with the
    greatest timestamp is the engine's choice: the class [Top1Desc] is that
    choice and [Top1DescSpec] its contract (a row of the input with the
    greatest timestamp, or nothing for no input).  The lemmas about the
    query are proved against the contract; [top1_latest], which breaks ties
    by the greatest id, is one engine that meets it.

    [get_time_series_data] (lines 82-109) groups the rows of one parcel
    in the trailing window by their ['HH:00'] label, averages the moisture
    of each group, and orders the groups by label. *)

From S2P Require Import Prelude Clock Store.

Module Query.
Import Store.
Import Clock.

(** ** [SELECT TOP 1 ... ORDER BY [timestamp] DESC] *)

Class Top1Desc := top1_desc : list reading -> option reading.

Class Top1DescSpec (t : Top1Desc) : Prop := {
  top1_desc_none rs : top1_desc rs = None -> rs = [];
  top1_desc_some rs r : top1_desc rs = Some r ->
    In r rs /\ Forall (fun r' => (timestamp r' <= timestamp r)%Z) rs
}.

(** [a] comes first in [ORDER BY [timestamp] DESC, id DESC]. *)
Definition newer (a b : reading) : bool :=
  (timestamp b <? timestamp a)%Z || ((timestamp a =? timestamp b)%Z && (id b <=? id a)%Z).

Fixpoint top1_latest (rs : list reading) : option reading :=
  match rs with
  | [] => None
  | r :: rs' =>
      match top1_latest rs' with
      | None => Some r
      | Some b => if newer r b then Some r else Some b
      end
  end.

#[export] Instance top1_highest_id : Top1Desc := top1_latest.

Lemma newer_iff a b : newer a b = true <->
  (timestamp b < timestamp a \/ timestamp a = timestamp b /\ id b <= id a)%Z.
Proof.
  unfold newer. rewrite orb_true_iff, andb_true_iff, Z.ltb_lt, Z.eqb_eq, Z.leb_le.
  reflexivity.
Qed.

Lemma newer_false a b : newer a b = false <->
  (timestamp a < timestamp b \/ timestamp a = timestamp b /\ id a < id b)%Z.
Proof.
  rewrite <- Bool.not_true_iff_false, newer_iff. lia.
Qed.

Lemma top1_latest_none rs : top1_latest rs = None -> rs = [].
Proof.
  destruct rs as [|r rs]; [reflexivity|]. simpl.
  destruct (top1_latest rs); [destruct (newer r r0)|]; discriminate.
Qed.

Lemma top1_latest_max rs m :
  top1_latest rs = Some m -> In m rs /\ Forall (fun x => newer m x = true) rs.
Proof.
  revert m. induction rs as [|r rs IH]; intros m; simpl; [discriminate|].
  destruct (top1_latest rs) as [b|] eqn:E.
  - destruct (IH b eq_refl) as [Hb Hall].
    destruct (newer r b) eqn:Hrb; intros [= <-].
    + split; [left; reflexivity|]. constructor; [apply newer_iff; lia|].
      eapply Forall_impl; [|exact Hall]. simpl.
      intros x Hx. apply newer_iff in Hx, Hrb. apply newer_iff. lia.
    + split; [right; exact Hb|]. constructor; [|exact Hall].
      apply newer_false in Hrb. apply newer_iff. lia.
  - cbn. intros [= <-]. apply top1_latest_none in E as ->.
    split; [left; reflexivity|]. repeat constructor. apply newer_iff. lia.
Qed.

(** The greatest-id engine meets the contract of the statement. *)
#[export] Instance top1_highest_id_spec : Top1DescSpec top1_highest_id.
Proof.
  split.
  - apply top1_latest_none.
  - intros rs r Hr. apply top1_latest_max in Hr as [Hin Hall]. split; [exact Hin|].
    eapply Forall_impl; [|exact Hall]. simpl. intros x Hx. apply newer_iff in Hx. lia.
Qed.

(** A row newer than every other, by timestamp and then by id, is the one
    returned. *)
Lemma top1_latest_unique_max rs r :
  In r rs ->
  (forall x, In x rs -> x <> r ->
     (timestamp x < timestamp r \/ timestamp x <= timestamp r /\ id x < id r)%Z) ->
  top1_latest rs = Some r.
Proof.
  intros Hr Hmax. destruct (top1_latest rs) as [m|] eqn:E.
  - apply top1_latest_max in E as [Hm Hall].
    rewrite Forall_forall in Hall. specialize (Hall r Hr).
    destruct (decide (m = r)) as [->|Hne]; [reflexivity|].
    specialize (Hmax m Hm Hne). apply newer_iff in Hall. lia.
  - apply top1_latest_none in E as ->. contradiction.
Qed.

Section Latest.
Context {top : Top1Desc} {top_spec : Top1DescSpec top}.

(** A SELECT the engine runs sees the committed rows. *)
Lemma select_rows_ok w :
  table_ok (db w) = true -> head (faults (db w)) <> Some true ->
  select_rows w = (Ok (rows (db w)), set_db (set_faults (drop 1 (faults (db w))) (db w)) w).
Proof.
  intros Ht Hf. unfold select_rows. rewrite run_bind, execute_ok by assumption.
  reflexivity.
Qed.

Definition get_latest_data (parcel_id : string) : PyM (option reading) :=
  get_db_connection ≫= fun oc =>
  match oc with
  | None => mret None
  | Some conn =>
      select_rows ≫= fun rs =>
      let row := top1_desc (filter (fun r => Store.parcel_id r = parcel_id) rs) in
      close conn ≫= fun _ =>
      mret row
  end.

Lemma get_latest_data_run p w :
  server_up (db w) = true -> table_ok (db w) = true -> head (faults (db w)) <> Some true ->
  get_latest_data p w =
    (Ok (top1_desc (filter (fun r => parcel_id r = p) (rows (db w)))),
     set_db (set_faults (drop 1 (faults (db w))) (db w)) w).
Proof.
  intros Hup Ht Hf. unfold get_latest_data. rewrite run_bind.
  unfold get_db_connection. rewrite Hup. simpl. rewrite run_bind, select_rows_ok by assumption.
  reflexivity.
Qed.

(** C2. Against a reachable store whose SELECT runs, [get_latest_data p]
    returns a row of parcel [p] whose timestamp no other row of [p] exceeds,
    and [None] exactly when [p] has no row; it changes no row and closes the
    connection it opened.  This holds for every engine that meets the
    contract of [TOP 1 ... ORDER BY [timestamp] DESC], whatever its
    tie-break. *)
Theorem get_latest_data_latest p w :
  server_up (db w) = true -> table_ok (db w) = true -> head (faults (db w)) <> Some true ->
  rows (db (snd (get_latest_data p w))) = rows (db w) /\
  open_conns (snd (get_latest_data p w)) = open_conns w /\
  match fst (get_latest_data p w) with
  | Ok None => forall r, In r (rows (db w)) -> parcel_id r <> p
  | Ok (Some r) =>
      In r (rows (db w)) /\ parcel_id r = p /\
      forall r', In r' (rows (db w)) -> parcel_id r' = p -> (timestamp r' <= timestamp r)%Z
  | Exc _ => False
  end.
Proof.
  intros Hup Ht Hf. rewrite get_latest_data_run by assumption. simpl.
  split; [reflexivity|]. split; [reflexivity|].
  destruct (top1_desc _) as [r|] eqn:E.
  - apply top1_desc_some in E as [Hin Hall].
    apply list_elem_of_In, list_elem_of_filter in Hin as [Hp Hin].
    apply list_elem_of_In in Hin. split; [exact Hin|]. split; [exact Hp|].
    intros r' Hr' Hp'. rewrite Forall_forall in Hall. apply Hall.
    apply list_elem_of_In, list_elem_of_filter. split; [exact Hp'|]. apply list_elem_of_In, Hr'.
  - apply top1_desc_none in E. intros r Hr Hp.
    assert (Hin : r ∈ filter (fun r => parcel_id r = p) (rows (db w))).
    { apply list_elem_of_filter. split; [exact Hp|]. apply list_elem_of_In, Hr. }
    rewrite E in Hin. apply not_elem_of_nil in Hin. exact Hin.
Qed.

End Latest.

(** ** [get_time_series_data] *)

(** A row of the result, [{'hour': ..., 'avg_moisture': ...}]. *)
Record point := mkPoint { hour : string; avg_moisture : option Q }.

(** [AVG(soil_moisture)]: NULLs are ignored; NULL when none is left. *)
Definition sql_avg (vs : list (option Q)) : option Q :=
  match omap (fun v => v) vs with
  | [] => None
  | xs => Some (Qmean xs)
  end.

(** [WHERE parcel_id = ? AND [timestamp] >= DATEADD(hour, ?, GETDATE())] *)
Definition in_window (parcel_id : string) (time_limit now : Z) (r : reading) : Prop :=
  Store.parcel_id r = parcel_id /\ (dateadd_hour time_limit now <= timestamp r)%Z.

#[export] Instance in_window_dec p tl now r : Decision (in_window p tl now r).
Proof. unfold in_window. apply _. Defined.

(** The grouping key [FORMAT([timestamp], 'HH:00')]. *)
Definition hour_key (r : reading) : string := format_HH00 (timestamp r).

(** [ORDER BY hour]: the labels sorted as strings. *)
Fixpoint insert_label (k : string) (ks : list string) : list string :=
  match ks with
  | [] => [k]
  | k' :: ks' => if String.ltb k' k then k' :: insert_label k ks' else k :: ks
  end.

Definition order_by (ks : list string) : list string := fold_right insert_label [] ks.

(** The statement: one group per distinct label ([GROUP BY]), its
    average, the groups in label order. *)
Definition hourly_query (parcel_id : string) (time_limit now : Z) (rs : list reading)
  : list point :=
  let sel := filter (in_window parcel_id time_limit now) rs in
  let groups := remove_dups (map hour_key sel) in
  map (fun k => mkPoint k (sql_avg (map soil_moisture (filter (fun r => hour_key r = k) sel))))
    (order_by groups).

Definition get_time_series_data (parcel_id : string) (hours : Z) : PyM (list point) :=
  get_db_connection ≫= fun oc =>
  match oc with
  | None => mret []
  | Some conn =>
      let time_limit := (- hours)%Z in
      select_rows ≫= fun rs =>
      get_st ≫= fun w =>
      close conn ≫= fun _ =>
      mret (hourly_query parcel_id time_limit (clock (db w)) rs)
  end.

(** The reference: a scan of the 24 hours of the day, in order, keeping
    the hours that have rows of the parcel in the window. *)
Definition hour_bucket (sel : list reading) (h : Z) : list reading :=
  filter (fun r => hour_of_day (timestamp r) = h) sel.

Definition hourly_reference (parcel_id : string) (hours now : Z) (rs : list reading)
  : list point :=
  let sel := filter (fun r => Store.parcel_id r = parcel_id /\
                              (now - 3600 * hours <= timestamp r)%Z) rs in
  flat_map (fun h => match hour_bucket sel h with
                     | [] => []
                     | b => [mkPoint (hh_label h) (sql_avg (map soil_moisture b))]
                     end) (seqZ 0 24).

Lemma insert_label_elem k ks x : x ∈ insert_label k ks <-> x = k \/ x ∈ ks.
Proof.
  induction ks as [|k' ks IH]; simpl; [rewrite list_elem_of_singleton, elem_of_nil; tauto|].
  destruct (String.ltb k' k); rewrite !elem_of_cons; [rewrite IH|]; tauto.
Qed.

Lemma order_by_elem ks x : x ∈ order_by ks <-> x ∈ ks.
Proof.
  induction ks as [|k ks IH]; simpl; [reflexivity|].
  rewrite insert_label_elem, IH, elem_of_cons. reflexivity.
Qed.

Lemma insert_label_sorted k ks :
  StronglySorted label_lt ks -> Forall is_label ks -> is_label k -> k ∉ ks ->
  StronglySorted label_lt (insert_label k ks).
Proof.
  induction 1 as [|k' ks Hs IH Hk']; intros Hl Hk Hnin; simpl; [repeat constructor|].
  apply Forall_cons_1 in Hl as [Hl' Hl].
  destruct Hk as (h & Hh & ->), Hl' as (h' & Hh' & ->).
  assert (Hne : h <> h') by (intros ->; apply Hnin; left).
  rewrite hh_label_order by assumption.
  destruct (Z.ltb_spec h' h).
  - constructor; [apply IH; [exact Hl | exists h; auto | intros Hin; apply Hnin; right; exact Hin]|].
    rewrite Forall_forall. intros x Hx. apply list_elem_of_In, insert_label_elem in Hx as [->|Hx].
    + apply label_lt_hours; assumption.
    + rewrite Forall_forall in Hk'. apply Hk', list_elem_of_In, Hx.
  - constructor; [constructor; assumption|]. constructor; [apply label_lt_hours; auto; lia|].
    eapply Forall_impl; [|exact Hk']. intros x Hx. eapply label_lt_trans; [|exact Hx].
    apply label_lt_hours; auto; lia.
Qed.

Lemma order_by_sorted ks :
  NoDup ks -> Forall is_label ks -> StronglySorted label_lt (order_by ks).
Proof.
  induction 1 as [|k ks Hnin Hnd IH]; intros Hl; simpl; [constructor|].
  apply Forall_cons_1 in Hl as [Hk Hl].
  apply insert_label_sorted; [apply IH, Hl| |exact Hk|].
  - rewrite Forall_forall. intros x Hx. rewrite Forall_forall in Hl.
    apply Hl, list_elem_of_In, order_by_elem, list_elem_of_In, Hx.
  - rewrite order_by_elem. exact Hnin.
Qed.

Lemma filter_hour_key sel h :
  is_hour h -> filter (fun r => hour_key r = hh_label h) sel = hour_bucket sel h.
Proof.
  intros Hh. apply list_filter_iff. intros r. unfold hour_key, format_HH00. split.
  - apply hh_label_inj; [apply hour_of_day_range | exact Hh].
  - intros ->. reflexivity.
Qed.

Lemma hours_sorted (P : Z -> Prop) `{forall h, Decision (P h)} :
  StronglySorted label_lt (map hh_label (filter P (seqZ 0 24))).
Proof.
  assert (Hs : StronglySorted Z.lt (filter P (seqZ 0 24))).
  { apply StronglySorted_filter. apply Sorted_StronglySorted; [intros ???; lia|].
    vm_compute. repeat constructor. }
  assert (Hh : Forall is_hour (filter P (seqZ 0 24))).
  { rewrite Forall_forall. intros h Hin. apply list_elem_of_In, list_elem_of_filter in Hin as [_ Hin].
    apply elem_of_seqZ in Hin. unfold is_hour. lia. }
  induction Hs as [|h l Hs IH Hlt]; simpl; constructor.
  - apply IH. inversion Hh; assumption.
  - apply Forall_cons_1 in Hh as [Hh Hl]. rewrite Forall_forall in Hlt, Hl |- *.
    intros s Hin. apply in_map_iff in Hin as (h' & <- & Hin).
    apply label_lt_hours; auto.
Qed.

Lemma hour_key_label r : is_label (hour_key r).
Proof. exists (hour_of_day (timestamp r)). split; [apply hour_of_day_range | reflexivity]. Qed.

Lemma hour_bucket_elem sel h r :
  In r (hour_bucket sel h) <-> In r sel /\ hour_of_day (timestamp r) = h.
Proof.
  unfold hour_bucket. rewrite <- list_elem_of_In, list_elem_of_filter, list_elem_of_In. tauto.
Qed.

(** The groups, in [ORDER BY] order, are the labels of the hours that have
    rows, in hour order. *)
Lemma group_labels sel :
  order_by (remove_dups (map hour_key sel)) =
  map hh_label (filter (fun h => hour_bucket sel h <> []) (seqZ 0 24)).
Proof.
  apply (StronglySorted_eq label_lt); [apply label_lt_asym | | apply hours_sorted |].
  - apply order_by_sorted; [apply NoDup_remove_dups|].
    rewrite Forall_forall. intros x Hx.
    apply list_elem_of_In, elem_of_remove_dups, list_elem_of_In, in_map_iff in Hx as (r & <- & _).
    apply hour_key_label.
  - intros x. rewrite order_by_elem, elem_of_remove_dups, !list_elem_of_In, !in_map_iff. split.
    + intros (r & <- & Hr). exists (hour_of_day (timestamp r)). split; [reflexivity|].
      apply list_elem_of_In, list_elem_of_filter. split.
      * intros E. assert (Hin : In r (hour_bucket sel (hour_of_day (timestamp r))))
          by (apply hour_bucket_elem; auto).
        rewrite E in Hin. exact Hin.
      * apply elem_of_seqZ. pose proof (hour_of_day_range (timestamp r)). unfold is_hour in *. lia.
    + intros (h & <- & Hh). apply list_elem_of_In, list_elem_of_filter in Hh as [Hne _].
      destruct (hour_bucket sel h) as [|r b] eqn:E; [contradiction|].
      assert (Hr : In r (hour_bucket sel h)) by (rewrite E; left; reflexivity).
      apply hour_bucket_elem in Hr as [Hr Hhr]. exists r. split; [|exact Hr].
      unfold hour_key, format_HH00. rewrite Hhr. reflexivity.
Qed.

Lemma flat_map_buckets sel (l : list Z) :
  flat_map (fun h => match hour_bucket sel h with
                     | [] => []
                     | b => [mkPoint (hh_label h) (sql_avg (map soil_moisture b))]
                     end) l =
  map (fun h => mkPoint (hh_label h) (sql_avg (map soil_moisture (hour_bucket sel h))))
    (filter (fun h => hour_bucket sel h <> []) l).
Proof.
  induction l as [|h l IH]; [reflexivity|].
  change (flat_map ?f (h :: l)) with (f h ++ flat_map f l). cbv beta.
  rewrite IH, filter_cons.
  destruct (hour_bucket sel h) eqn:E; case_decide; try congruence; simpl; rewrite ?E; reflexivity.
Qed.

Lemma hourly_query_scan p hours now rs :
  hourly_query p (- hours) now rs = hourly_reference p hours now rs.
Proof.
  unfold hourly_query, hourly_reference. cbv zeta.
  assert (Hsel : filter (in_window p (- hours) now) rs =
    filter (fun r => parcel_id r = p /\ (now - 3600 * hours <= timestamp r)%Z) rs).
  { apply list_filter_iff. intros r. unfold in_window, dateadd_hour, SECONDS_PER_HOUR.
    split; intros [? ?]; split; auto; lia. }
  rewrite Hsel, group_labels, map_map, flat_map_buckets.
  apply map_ext_in. intros h Hin.
  apply list_elem_of_In, list_elem_of_filter in Hin as [_ Hin]. apply elem_of_seqZ in Hin.
  rewrite filter_hour_key by (unfold is_hour; lia). reflexivity.
Qed.

(** C3. The statement of [get_time_series_data] computes the same list as
    a scan of the 24 hours of the day in order: for every hour that has rows
    of the parcel no older than [hours] hours, the label ['HH:00'] and the
    average of their moisture.  [GROUP BY] and [ORDER BY] on the string
    labels agree with grouping and ordering by the hour number. *)
Theorem hourly_query_reference p hours now rs :
  hourly_query p (- hours) now rs = hourly_reference p hours now rs.
Proof. apply hourly_query_scan. Qed.

(** The rows of one point of the series. *)
Definition series_bucket (p : string) (hours now h : Z) (rs : list reading) : list reading :=
  filter (fun r => parcel_id r = p /\ (now - 3600 * hours <= timestamp r)%Z /\
                   hour_of_day (timestamp r) = h) rs.

Lemma hour_bucket_series p hours now rs h :
  hour_bucket (filter (fun r => parcel_id r = p /\ (now - 3600 * hours <= timestamp r)%Z) rs) h =
  series_bucket p hours now h rs.
Proof. unfold hour_bucket, series_bucket. rewrite list_filter_filter. apply list_filter_iff. tauto. Qed.

(** C10. The points of the series: a point is in the result of the
    statement exactly when it is, for some hour of the day that has rows of
    parcel [p] captured no earlier than [hours] hours before [now], the
    label of that hour with the mean of the moisture of exactly those rows;
    rows of other parcels and older rows take no part. *)
Theorem hourly_query_points p hours now rs pt :
  In pt (hourly_query p (- hours) now rs) <->
  exists h, is_hour h /\ series_bucket p hours now h rs <> [] /\
    pt = mkPoint (hh_label h) (sql_avg (map soil_moisture (series_bucket p hours now h rs))).
Proof.
  rewrite hourly_query_scan. unfold hourly_reference. cbv zeta.
  rewrite flat_map_buckets, in_map_iff. split.
  - intros (h & <- & Hin). apply list_elem_of_In, list_elem_of_filter in Hin as [Hne Hin].
    apply elem_of_seqZ in Hin. rewrite hour_bucket_series in Hne |- *.
    exists h. split_and!; [unfold is_hour; lia | exact Hne | reflexivity].
  - intros (h & Hh & Hne & ->). exists h. rewrite hour_bucket_series. split; [reflexivity|].
    apply list_elem_of_In, list_elem_of_filter. rewrite hour_bucket_series.
    split; [exact Hne|]. apply elem_of_seqZ. unfold is_hour in Hh. lia.
Qed.

(** C13. The labels of the series are strictly increasing in the order of
    the hours of the day: each hour appears at most once and ["09:00"]
    comes before ["10:00"]. *)
Theorem hourly_query_sorted p tl now rs :
  StronglySorted label_lt (map hour (hourly_query p tl now rs)).
Proof.
  unfold hourly_query. rewrite map_map. simpl. rewrite map_id.
  apply order_by_sorted; [apply NoDup_remove_dups|].
  rewrite Forall_forall. intros x Hx.
  apply list_elem_of_In, elem_of_remove_dups, list_elem_of_In, in_map_iff in Hx as (r & <- & _).
  apply hour_key_label.
Qed.

(** C31. For a window of at most 23 hours (the dashboard asks for 12) and
    a table with no row stamped after the server clock, grouping by the
    ['HH:00'] label never merges readings of different days: two rows of
    the window with the same label lie in the same clock hour.  The
    coarsening the spec notes (same hour, different day) needs a longer
    window or rows from the future. *)
Theorem hourly_groups_one_hour p hours now rs r1 r2 :
  (hours <= 23)%Z -> Forall (fun r => (timestamp r <= now)%Z) rs ->
  In r1 (filter (in_window p (- hours) now) rs) -> In r2 (filter (in_window p (- hours) now) rs) ->
  hour_key r1 = hour_key r2 ->
  (timestamp r1 / SECONDS_PER_HOUR = timestamp r2 / SECONDS_PER_HOUR)%Z.
Proof.
  intros Hh Hnow H1 H2 Hk.
  apply list_elem_of_In, list_elem_of_filter in H1 as [[_ W1] I1], H2 as [[_ W2] I2].
  apply list_elem_of_In in I1, I2. rewrite Forall_forall in Hnow.
  apply hour_of_day_same_hour; [apply format_HH00_inj, Hk|].
  pose proof (Hnow _ I1). pose proof (Hnow _ I2).
  unfold dateadd_hour, SECONDS_PER_HOUR in *. lia.
Qed.

(** ** The spec's scenario: rows (A, 10:05, 18.0), (A, 10:40, 22.0),
    (B, 10:10, 40.0) on day 0, timestamps in seconds. *)
Definition scenario_rows : list reading :=
  [mkReading 1 "A" 36300 (Some 18) (Some 25);
   mkReading 2 "A" 38400 (Some 22) (Some 26);
   mkReading 3 "B" 36600 (Some 40) (Some 24)].

Lemma get_latest_data_latest_witness :
  let w := demo_world scenario_rows 39600 in
  rows (db (snd (get_latest_data "A" w))) = rows (db w) /\
  open_conns (snd (get_latest_data "A" w)) = open_conns w /\
  match fst (get_latest_data "A" w) with
  | Ok None => forall r, In r (rows (db w)) -> parcel_id r <> "A"
  | Ok (Some r) =>
      In r (rows (db w)) /\ parcel_id r = "A" /\
      forall r', In r' (rows (db w)) -> parcel_id r' = "A" -> (timestamp r' <= timestamp r)%Z
  | Exc _ => False
  end.
Proof. apply get_latest_data_latest; [reflexivity | reflexivity | discriminate]. Defined.

Lemma get_time_series_data_run p hours w :
  server_up (db w) = true -> table_ok (db w) = true -> head (faults (db w)) <> Some true ->
  get_time_series_data p hours w =
    (Ok (hourly_query p (- hours) (clock (db w)) (rows (db w))),
     set_db (set_faults (drop 1 (faults (db w))) (db w)) w).
Proof.
  intros Hup Ht Hf. unfold get_time_series_data. rewrite run_bind.
  unfold get_db_connection. rewrite Hup. simpl. rewrite run_bind, select_rows_ok by assumption.
  reflexivity.
Qed.

(** C11. Against a reachable store whose SELECT runs,
    [get_time_series_data p hours] returns the hourly series of parcel [p]
    over the [hours] hours before the server clock, computed as the 24-hour
    scan; it changes no row and closes its connection. *)
Theorem get_time_series_data_series p hours w :
  server_up (db w) = true -> table_ok (db w) = true -> head (faults (db w)) <> Some true ->
  fst (get_time_series_data p hours w) =
    Ok (hourly_reference p hours (clock (db w)) (rows (db w))) /\
  rows (db (snd (get_time_series_data p hours w))) = rows (db w) /\
  open_conns (snd (get_time_series_data p hours w)) = open_conns w.
Proof.
  intros Hup Ht Hf. rewrite get_time_series_data_run by assumption. simpl.
  rewrite hourly_query_scan. auto.
Qed.

Lemma get_time_series_data_series_witness :
  let w := demo_world scenario_rows 39600 in
  fst (get_time_series_data "A" 12 w) = Ok (hourly_reference "A" 12 (clock (db w)) (rows (db w))) /\
  rows (db (snd (get_time_series_data "A" 12 w))) = rows (db w) /\
  open_conns (snd (get_time_series_data "A" 12 w)) = open_conns w.
Proof. apply get_time_series_data_series; [reflexivity | reflexivity | discriminate]. Defined.

(** The scenario of the spec: [hourly_series(A, 12)] is one point, ["10:00"]
    with the average 20.0 of 18.0 and 22.0; [B]'s row takes no part. *)
Example get_time_series_data_scenario :
  fst (get_time_series_data "A" 12 (demo_world scenario_rows 39600)) =
    Ok [mkPoint "10:00" (Some 20)].
Proof. vm_compute. reflexivity. Qed.

Lemma get_latest_data_reads {top : Top1Desc} w0 p :
  preserves (same_table w0) (get_latest_data p).
Proof. unfold get_latest_data. preserves_tac. Qed.

Lemma get_time_series_data_reads w0 p hours :
  preserves (same_table w0) (get_time_series_data p hours).
Proof. unfold get_time_series_data. preserves_tac. Qed.

#[export] Hint Resolve get_latest_data_reads get_time_series_data_reads : agri.

Lemma get_latest_data_down {top : Top1Desc} p w :
  server_up (db w) = false -> get_latest_data p w = (Ok None, w).
Proof. intros Hup. unfold get_latest_data. rewrite run_bind. unfold get_db_connection. rewrite Hup. reflexivity. Qed.

(** C15. Against an unreachable server both queries return their empty
    value, [None] and [[]], and leave the world as it was: the dashboard
    degrades to no data. *)
Theorem queries_unreachable {top : Top1Desc} p hours w :
  server_up (db w) = false ->
  get_latest_data p w = (Ok None, w) /\ get_time_series_data p hours w = (Ok [], w).
Proof.
  intros Hup. split; [apply get_latest_data_down, Hup|].
  unfold get_time_series_data. rewrite run_bind. unfold get_db_connection. rewrite Hup.
  reflexivity.
Qed.

Lemma queries_unreachable_witness :
  let w := set_db (mkStore scenario_rows 4 0 false true []) (demo_world [] 0) in
  get_latest_data "A" w = (Ok None, w) /\ get_time_series_data "A" 12 w = (Ok [], w).
Proof. apply queries_unreachable. reflexivity. Defined.

(** C19. When [sensor_data] is missing, both queries raise
    [ProgrammingError] out of [cursor.execute] instead of returning an empty
    value, and leave the connection they opened unclosed. *)
Theorem queries_no_table {top : Top1Desc} p hours w :
  server_up (db w) = true -> table_ok (db w) = false ->
  get_latest_data p w = (Exc ProgrammingError, set_open_conns (S (open_conns w)) w) /\
  get_time_series_data p hours w = (Exc ProgrammingError, set_open_conns (S (open_conns w)) w).
Proof.
  intros Hup Ht. unfold get_latest_data, get_time_series_data.
  rewrite !run_bind. unfold get_db_connection. rewrite Hup. simpl.
  unfold select_rows. rewrite !run_bind, execute_no_table by exact Ht. split; reflexivity.
Qed.

Lemma queries_no_table_witness :
  let w := set_db (mkStore scenario_rows 4 0 true false []) (demo_world [] 0) in
  get_latest_data "A" w = (Exc ProgrammingError, set_open_conns (S (open_conns w)) w) /\
  get_time_series_data "A" 12 w = (Exc ProgrammingError, set_open_conns (S (open_conns w)) w).
Proof. apply queries_no_table; reflexivity. Defined.

Example get_latest_data_scenario :
  fst (get_latest_data "A" (demo_world scenario_rows 39600)) =
    Ok (Some (mkReading 2 "A" 38400 (Some 22) (Some 26))).
Proof. vm_compute. reflexivity. Qed.

Lemma hourly_groups_one_hour_witness :
  (12 <= 23)%Z /\ Forall (fun r => (timestamp r <= 39600)%Z) scenario_rows /\
  (timestamp (mkReading 1 "A" 36300 (Some 18%Q) (Some 25%Q)) / SECONDS_PER_HOUR =
   timestamp (mkReading 2 "A" 38400 (Some 22%Q) (Some 26%Q)) / SECONDS_PER_HOUR)%Z.
Proof.
  split; [lia|]. split; [repeat constructor; simpl; lia|].
  apply (hourly_groups_one_hour "A" 12 39600 scenario_rows); [lia | repeat constructor; simpl; lia
    | vm_compute; auto | vm_compute; auto | vm_compute; reflexivity].
Defined.

End Query.
