(* ===== verification/Dashboard.v ===== *)
(** * Presentation assembly: the [dashboard] view (src/AgriSense/app.py, lines 125-155)

    For each parcel of [PARCELS], in order, the route fetches the latest
    row; when there is one it computes the alert from its moisture, fetches
    the 12-hour series when the parcel is [PARCELS[0]], and records
    [{moisture, temp, alert}] under the parcel in the dict [latest_data].
    The view passed to [render_template] is the record [view].  The Python
    dict is an association list with the dict's assignment semantics
    (replace in place, or append).  [check_for_alerts(None)] raises
    [TypeError], since [None < 20.0] does: a latest row whose moisture is
    NULL makes the route fail.  [view_wf] is the shape of every view the route
    returns, proved for any store and any engine. *)

From S2P Require Import Prelude Alert Clock Store Query.

Module Dashboard.
Import Store Query Alert.

(** [{"moisture": ..., "temp": ..., "alert": ...}] *)
Record parcel_view := mkParcelView {
  moisture : option Q;
  temp : option Q;
  alert : Alert.alert
}.

(** [d[k] = v] on a Python dict. *)
Fixpoint dict_set {V} (k : string) (v : V) (d : list (string * V)) : list (string * V) :=
  match d with
  | [] => [(k, v)]
  | (k', v') :: d' => if decide (k = k') then (k, v) :: d' else (k', v') :: dict_set k v d'
  end.

(** The keyword arguments of [render_template]. *)
Record view := mkView {
  parcels : list (string * parcel_view);
  parcel_ids : list string;
  chart_labels : list string;
  chart_values : list (option Q)
}.

(** The locals of the loop: [latest_data], [labels], [moisture_values]. *)
Record locals := mkLocals {
  latest_data : list (string * parcel_view);
  labels : list string;
  moisture_values : list (option Q)
}.

(** [check_for_alerts(data['soil_moisture'])]: a NULL moisture is [None]. *)
Definition alert_of (m : option Q) : PyM Alert.alert :=
  match m with
  | Some x => mret (check_for_alerts x)
  | None => mthrow TypeError
  end.

Section Route.
Context {top : Top1Desc}.

(** One iteration of [for parcel_id in PARCELS]. *)
Definition dashboard_step (l : locals) (parcel_id : string) : PyM locals :=
  get_latest_data parcel_id ≫= fun data =>
  match data with
  | None => mret l
  | Some data =>
      alert_of (soil_moisture data) ≫= fun alert =>
      (if decide (PARCELS !! 0%nat = Some parcel_id) then
         get_time_series_data parcel_id 12 ≫= fun chart_data_raw =>
         mret (map hour chart_data_raw, map avg_moisture chart_data_raw)
       else mret (labels l, moisture_values l)) ≫= fun lv =>
      mret (mkLocals
              (dict_set parcel_id (mkParcelView (soil_moisture data) (air_temp data) alert)
                 (latest_data l))
              (fst lv) (snd lv))
  end.

Definition dashboard : PyM view :=
  fold_m dashboard_step (mkLocals [] [] []) PARCELS ≫= fun l =>
  mret (mkView (latest_data l) PARCELS (labels l) (moisture_values l)).

End Route.

(** ** The dict [latest_data] *)

Section Dict.
Context {V : Type}.
Implicit Types (d : list (string * V)) (v : V).

Lemma dict_set_keys k v d :
  map fst (dict_set k v d) = if decide (k ∈ map fst d) then map fst d else map fst d ++ [k].
Proof.
  induction d as [|[k' v'] d IH]; simpl; [reflexivity|].
  destruct (decide (k = k')) as [->|Hne]; simpl.
  - rewrite decide_True by (apply elem_of_cons; left; reflexivity). reflexivity.
  - rewrite IH. destruct (decide (k ∈ map fst d)) as [Hin|Hin];
      rewrite ?decide_True, ?decide_False by (rewrite elem_of_cons; tauto); reflexivity.
Qed.

Lemma dict_set_forall (P : string * V -> Prop) k v d :
  Forall P d -> P (k, v) -> Forall P (dict_set k v d).
Proof.
  induction 1 as [|[k' v'] d Hx Hd IH]; intros Hk; simpl; [auto|].
  case_decide; constructor; auto.
Qed.

End Dict.

(** ** The route only reads *)

Lemma alert_of_reads w0 m : preserves (same_table w0) (alert_of m).
Proof. unfold alert_of. preserves_tac. Qed.

#[export] Hint Resolve alert_of_reads : agri.

Lemma dashboard_reads {top : Top1Desc} w0 : preserves (same_table w0) dashboard.
Proof.
  unfold dashboard. apply preserves_bind; [|intros; apply preserves_ret].
  apply preserves_fold_m. intros l p. unfold dashboard_step. preserves_tac.
Qed.

(** ** Every view the route renders is well formed *)

(** An entry of [latest_data]: a moisture is present and the alert is the
    one [check_for_alerts] gives for it. *)
Definition entry_ok (e : string * parcel_view) : Prop :=
  exists m, moisture (snd e) = Some m /\ alert (snd e) = check_for_alerts m.

(** The locals after the iterations over the parcels [done]. *)
Definition locals_wf (done : list string) (l : locals) : Prop :=
  map fst (latest_data l) `sublist_of` done /\ Forall entry_ok (latest_data l) /\
  length (labels l) = length (moisture_values l).

(** The view's shape: the parcel ids are [PARCELS], the listed parcels are
    some of them, each once, in their order, each entry is well formed,
    and the chart's two sequences run in parallel. *)
Definition view_wf (v : view) : Prop :=
  parcel_ids v = PARCELS /\ map fst (parcels v) `sublist_of` PARCELS /\
  NoDup (map fst (parcels v)) /\ Forall entry_ok (parcels v) /\
  length (chart_labels v) = length (chart_values v).

Lemma locals_wf_skip done p l : locals_wf done l -> locals_wf (done ++ [p]) l.
Proof. intros (Hk & He & Hl). split_and!; auto. apply sublist_inserts_r, Hk. Qed.

Lemma locals_wf_set done p m t l a b :
  p ∉ done -> locals_wf done l -> length a = length b ->
  locals_wf (done ++ [p])
    (mkLocals (dict_set p (mkParcelView (Some m) t (check_for_alerts m)) (latest_data l)) a b).
Proof.
  intros Hp (Hk & He & _) Hab. split_and!; simpl; auto.
  - rewrite dict_set_keys, decide_False; [apply sublist_app; [exact Hk | reflexivity]|].
    intros Hin. apply Hp. eapply elem_of_sublist; eauto.
  - apply dict_set_forall; [exact He|]. exists m. auto.
Qed.

Section RouteWf.
Context {top : Top1Desc}.

Lemma dashboard_step_wf done l p w :
  p ∉ done -> locals_wf done l ->
  match dashboard_step l p w with
  | (Ok l', _) => locals_wf (done ++ [p]) l'
  | (Exc _, _) => True
  end.
Proof.
  intros Hp Hl. unfold dashboard_step. rewrite run_bind.
  destruct (get_latest_data p w) as [[[data|]|e] w1]; [|apply locals_wf_skip, Hl|exact I].
  unfold alert_of. destruct (soil_moisture data) as [m|]; [|exact I].
  rewrite run_bind, run_ret. destruct (decide _).
  - rewrite run_bind, run_bind. destruct (get_time_series_data p 12 w1) as [[S|e2] w2]; [|exact I].
    apply locals_wf_set; auto. simpl. rewrite !length_map. reflexivity.
  - apply locals_wf_set; auto. apply Hl.
Qed.

Lemma fold_dashboard_wf ps done l w :
  NoDup (done ++ ps) -> locals_wf done l ->
  match fold_m dashboard_step l ps w with
  | (Ok l', _) => locals_wf (done ++ ps) l'
  | (Exc _, _) => True
  end.
Proof.
  revert done l w. induction ps as [|p ps IH]; intros done l w Hnd Hl; simpl.
  - rewrite app_nil_r. exact Hl.
  - rewrite run_bind. assert (Hp : p ∉ done).
    { intros Hin. apply list.NoDup_app in Hnd as (_ & Hdis & _). apply (Hdis p Hin). left. }
    pose proof (dashboard_step_wf done l p w Hp Hl) as Hs.
    destruct (dashboard_step l p w) as [[l1|e] w1]; [|exact I].
    replace (done ++ p :: ps) with ((done ++ [p]) ++ ps) in * by (rewrite <- app_assoc; reflexivity).
    apply IH; assumption.
Qed.

(** C28. Every view the route renders is well formed, whatever the store
    does and whatever row the engine picks: [parcel_ids] is [PARCELS]; the
    keys of [parcels] are distinct parcels of [PARCELS], in its order; each
    entry holds a moisture and the alert [check_for_alerts] gives for it;
    and [chart_labels] and [chart_values] have the same length. *)
Theorem dashboard_view_wf w :
  match fst (dashboard w) with
  | Ok v => view_wf v
  | Exc _ => True
  end.
Proof.
  unfold dashboard. rewrite run_bind.
  pose proof (fold_dashboard_wf PARCELS [] (mkLocals [] [] []) w PARCELS_nodup) as H.
  destruct (fold_m dashboard_step (mkLocals [] [] []) PARCELS w) as [[l|e] w1]; [|exact I].
  destruct H as (Hk & He & Hl); [split_and!; simpl; auto using sublist_nil_l|].
  split_and!; simpl; auto. eapply sublist_NoDup; [exact PARCELS_nodup | exact Hk].
Qed.

End RouteWf.

(** ** The route on a store that does not fail *)

(** The server is up, the table in place, and no statement fails. *)
Definition quiet (d : store) : Prop := server_up d = true /\ table_ok d = true /\ faults d = [].

(** The world after statements on a quiet store: nothing changed but the
    (already empty) fault oracle. *)
Definition after_reads (w : world) : world := set_db (set_faults [] (db w)) w.

Lemma after_reads_quiet w : quiet (db w) -> quiet (db (after_reads w)).
Proof. intros (Hu & Ht & _). unfold quiet; simpl. auto. Qed.

(** The entry the spec expects for a parcel: its latest row's values and
    alert, or no entry when the parcel has no row. *)
Definition parcel_entry `{Top1Desc} (rs : list reading) (p : string)
  : option (string * parcel_view) :=
  match top1_desc (filter (fun r => parcel_id r = p) rs) with
  | Some r =>
      match soil_moisture r with
      | Some m => Some (p, mkParcelView (Some m) (air_temp r) (check_for_alerts m))
      | None => None
      end
  | None => None
  end.

Section RouteRun.
Context {top : Top1Desc}.

Lemma dashboard_step_quiet l p w :
  quiet (db w) ->
  let S := hourly_query p (- 12) (clock (db w)) (rows (db w)) in
  let first := decide (PARCELS !! 0%nat = Some p) in
  dashboard_step l p w =
  match top1_desc (filter (fun r => parcel_id r = p) (rows (db w))) with
  | None => (Ok l, after_reads w)
  | Some r =>
      match soil_moisture r with
      | None => (Exc TypeError, after_reads w)
      | Some m =>
          (Ok (mkLocals
                 (dict_set p (mkParcelView (Some m) (air_temp r) (check_for_alerts m))
                    (latest_data l))
                 (if first then map hour S else labels l)
                 (if first then map avg_moisture S else moisture_values l)),
           after_reads w)
      end
  end.
Proof.
  intros (Hu & Ht & Hf). simpl. unfold dashboard_step. rewrite run_bind.
  rewrite get_latest_data_run by (rewrite ?Hf; auto; discriminate). rewrite Hf.
  destruct (top1_desc _) as [r|]; [|reflexivity].
  destruct (soil_moisture r) as [m|]; [|reflexivity].
  py_unfold. simpl. destruct (decide _); [|reflexivity].
  rewrite get_time_series_data_run by (simpl; auto; discriminate). reflexivity.
Qed.

Lemma hourly_query_no_rows p tl now rs :
  filter (fun r => parcel_id r = p) rs = [] -> hourly_query p tl now rs = [].
Proof.
  intros H. unfold hourly_query.
  assert (E : filter (in_window p tl now) rs = []).
  { rewrite <- (list_filter_iff (fun r => in_window p tl now r /\ parcel_id r = p)
                  (in_window p tl now)) by (unfold in_window; tauto).
    rewrite <- list_filter_filter, H. reflexivity. }
  rewrite E. reflexivity.
Qed.

(** Every parcel's latest row has a moisture (the column is nullable). *)
Definition moisture_present (rs : list reading) : Prop :=
  Forall (fun p => forall r, top1_desc (filter (fun r => parcel_id r = p) rs) = Some r ->
                             soil_moisture r <> None) PARCELS.

Context {top_spec : Top1DescSpec top}.

Lemma dashboard_run w :
  quiet (db w) -> moisture_present (rows (db w)) ->
  let S := hourly_query "Tarla A (Buğday)" (- 12) (clock (db w)) (rows (db w)) in
  dashboard w =
    (Ok (mkView (omap (parcel_entry (rows (db w))) PARCELS) PARCELS
                (map hour S) (map avg_moisture S)),
     after_reads w).
Proof.
  intros Hq Hm. apply Forall_cons_1 in Hm as [Hm0 Hm]. apply Forall_cons_1 in Hm as [Hm1 _].
  unfold dashboard. simpl fold_m. rewrite !run_bind.
  rewrite dashboard_step_quiet by exact Hq. unfold parcel_entry; simpl omap.
  destruct (top1_desc (filter (fun r => parcel_id r = "Tarla A (Buğday)") (rows (db w))))
    as [r0|] eqn:E0.
  - destruct (soil_moisture r0) as [m0|] eqn:M0; [|exfalso; exact (Hm0 r0 eq_refl M0)].
    rewrite run_bind, dashboard_step_quiet by (apply after_reads_quiet, Hq). simpl.
    destruct (top1_desc (filter (fun r => parcel_id r = "Tarla B (Mısır)") (rows (db w))))
      as [r1|] eqn:E1.
    + destruct (soil_moisture r1) as [m1|] eqn:M1; [reflexivity|exfalso; exact (Hm1 r1 eq_refl M1)].
    + reflexivity.
  - rewrite hourly_query_no_rows by (apply top1_desc_none; exact E0).
    rewrite run_bind, dashboard_step_quiet by (apply after_reads_quiet, Hq). simpl.
    destruct (top1_desc (filter (fun r => parcel_id r = "Tarla B (Mısır)") (rows (db w))))
      as [r1|] eqn:E1.
    + destruct (soil_moisture r1) as [m1|] eqn:M1; [reflexivity|exfalso; exact (Hm1 r1 eq_refl M1)].
    + reflexivity.
Qed.

(** C5. On a store that does not fail, the dashboard shows, for each
    parcel of [PARCELS] in order that has a row, the moisture, temperature
    and alert of its latest row; [parcel_ids] is [PARCELS]; the chart is the
    12-hour series of [PARCELS[0]].  The route changes no row and closes
    every connection it opens.  (Every latest row must have a moisture: see
    [dashboard_null_moisture].) *)
Theorem dashboard_view w :
  quiet (db w) -> moisture_present (rows (db w)) ->
  let S := hourly_query "Tarla A (Buğday)" (- 12) (clock (db w)) (rows (db w)) in
  fst (dashboard w) =
    Ok (mkView (omap (parcel_entry (rows (db w))) PARCELS) PARCELS
               (map hour S) (map avg_moisture S)) /\
  rows (db (snd (dashboard w))) = rows (db w) /\
  open_conns (snd (dashboard w)) = open_conns w.
Proof. intros Hq Hm. simpl. rewrite dashboard_run by assumption. auto. Qed.

Lemma parcel_entry_fst rs p e : parcel_entry rs p = Some e -> fst e = p.
Proof.
  unfold parcel_entry. destruct (top1_desc _); [|discriminate].
  destruct (soil_moisture r); [|discriminate]. intros [= <-]. reflexivity.
Qed.

Lemma parcel_entry_none rs p : moisture_present rs -> p ∈ PARCELS ->
  parcel_entry rs p = None <-> filter (fun r => parcel_id r = p) rs = [].
Proof.
  intros Hm Hp. unfold parcel_entry, moisture_present in *. rewrite Forall_forall in Hm.
  specialize (Hm p (proj1 (list_elem_of_In _ _) Hp)).
  destruct (top1_desc _) as [r|] eqn:E.
  - destruct (soil_moisture r) as [m|] eqn:M; [|exfalso; exact (Hm r eq_refl M)].
    split; [discriminate|]. intros Hnil. rewrite Hnil in E.
    apply top1_desc_some in E as [[] _].
  - apply top1_desc_none in E. split; auto.
Qed.

Lemma entries_keys rs ps : moisture_present rs -> (forall p, p ∈ ps -> p ∈ PARCELS) ->
  map fst (omap (parcel_entry rs) ps) =
  filter (fun p => filter (fun r => parcel_id r = p) rs <> []) ps.
Proof.
  intros Hm. induction ps as [|p ps IH]; intros Hps; [reflexivity|].
  rewrite filter_cons.
  change (omap (parcel_entry rs) (p :: ps)) with
    (match parcel_entry rs p with
     | Some e => e :: omap (parcel_entry rs) ps
     | None => omap (parcel_entry rs) ps end).
  assert (Hp : p ∈ PARCELS) by (apply Hps; left).
  specialize (IH ltac:(intros q Hq; apply Hps; right; exact Hq)).
  pose proof (parcel_entry_none rs p Hm Hp) as Hn.
  destruct (parcel_entry rs p) as [e|] eqn:E; case_decide; cbn [map]; rewrite ?IH.
  - rewrite (parcel_entry_fst _ _ _ E). reflexivity.
  - exfalso. assert (Some e = None) by (apply Hn; tauto). discriminate.
  - exfalso. tauto.
  - reflexivity.
Qed.

(** C6. Absent means invisible: the parcels the dashboard lists are
    exactly the parcels of [PARCELS] that have a row, in the order of
    [PARCELS]; a parcel with no reading gets no entry, not a blank one. *)
Theorem dashboard_absent_invisible w :
  quiet (db w) -> moisture_present (rows (db w)) ->
  match fst (dashboard w) with
  | Ok v => map fst (parcels v) =
              filter (fun p => filter (fun r => parcel_id r = p) (rows (db w)) <> []) PARCELS
  | Exc _ => False
  end.
Proof.
  intros Hq Hm. rewrite dashboard_run by assumption. cbn [fst parcels].
  apply entries_keys; [exact Hm | auto].
Qed.

(** C20. A NULL moisture breaks the route: when the latest row of the
    first parcel has no moisture, [check_for_alerts(None)] compares [None]
    with [20.0] and the route raises [TypeError] instead of rendering. *)
Theorem dashboard_null_moisture w r :
  quiet (db w) ->
  top1_desc (filter (fun r => parcel_id r = "Tarla A (Buğday)") (rows (db w))) = Some r ->
  soil_moisture r = None ->
  fst (dashboard w) = Exc TypeError.
Proof.
  intros Hq E M. unfold dashboard. simpl fold_m.
  rewrite !run_bind, dashboard_step_quiet by exact Hq. rewrite E, M. reflexivity.
Qed.

Lemma dashboard_step_down l p w :
  server_up (db w) = false -> dashboard_step l p w = (Ok l, w).
Proof. intros Hup. unfold dashboard_step. rewrite run_bind, get_latest_data_down by exact Hup. reflexivity. Qed.

(** C16. With the server unreachable the route still renders: no parcel,
    the full [parcel_ids], an empty chart, and the world unchanged. *)
Theorem dashboard_unreachable w :
  server_up (db w) = false -> dashboard w = (Ok (mkView [] PARCELS [] []), w).
Proof.
  intros Hup. unfold dashboard. simpl fold_m.
  rewrite !run_bind, dashboard_step_down by exact Hup.
  rewrite run_bind, dashboard_step_down by exact Hup. reflexivity.
Qed.

End RouteRun.

(** Rows of both parcels, every moisture present. *)
Definition demo_rows : list reading :=
  [mkReading 1 "Tarla A (Buğday)" 36300 (Some 18) (Some 25);
   mkReading 2 "Tarla B (Mısır)" 36600 (Some 40) (Some 24)].

Lemma demo_moisture_present : moisture_present demo_rows.
Proof. repeat constructor; intros r H; vm_compute in H; injection H as <-; discriminate. Qed.

Lemma dashboard_view_witness :
  let w := demo_world demo_rows 39600 in
  let S := hourly_query "Tarla A (Buğday)" (- 12) (clock (db w)) (rows (db w)) in
  fst (dashboard w) =
    Ok (mkView (omap (parcel_entry (rows (db w))) PARCELS) PARCELS
               (map hour S) (map avg_moisture S)) /\
  rows (db (snd (dashboard w))) = rows (db w) /\
  open_conns (snd (dashboard w)) = open_conns w.
Proof. apply dashboard_view; [split_and!; reflexivity | apply demo_moisture_present]. Defined.

Lemma dashboard_null_moisture_witness :
  fst (dashboard (demo_world [mkReading 1 "Tarla A (Buğday)" 36300 None (Some 25)] 39600)) =
    Exc TypeError.
Proof.
  apply (dashboard_null_moisture _ (mkReading 1 "Tarla A (Buğday)" 36300 None (Some 25)));
    [split_and!; reflexivity | vm_compute; reflexivity | reflexivity].
Defined.

Lemma dashboard_unreachable_witness :
  let w := set_db (mkStore demo_rows 3 39600 false true []) (demo_world [] 0) in
  dashboard w = (Ok (mkView [] PARCELS [] []), w).
Proof. apply dashboard_unreachable. reflexivity. Defined.

Lemma dashboard_absent_invisible_witness :
  let w := demo_world [mkReading 1 "Tarla B (Mısır)" 36600 (Some 40) (Some 24)] 39600 in
  match fst (dashboard w) with
  | Ok v => map fst (parcels v) =
              filter (fun p => filter (fun r => parcel_id r = p) (rows (db w)) <> []) PARCELS
  | Exc _ => False
  end.
Proof.
  apply dashboard_absent_invisible; [split_and!; reflexivity|].
  repeat constructor; intros r H; vm_compute in H; try discriminate; injection H as <-; discriminate.
Defined.

End Dashboard.
