(* ===== verification/System.v ===== *)
(** * The process: scheduler, request thread and environment
    (src/AgriSense/app.py, lines 157-169)

    The [__main__] block creates a [BackgroundScheduler], adds
    [simulate_and_insert_data] as an interval job of one minute, starts the
    scheduler, registers its [shutdown] with [atexit] and serves the Flask
    app.  The process is a step relation on [sys]: the scheduler's state,
    the time of the next run and the world.  Its steps are the scheduler's
    start, a tick when the next run is due (an exception of the job is
    logged by the scheduler and the next run is planned all the same), a
    request served by [dashboard] on the request thread, the passing of
    time, the server going down or up, and the shutdown at exit.  Steps of
    the two threads interleave freely; each step is atomic, as each
    statement of the store is.  On a store that accepts every statement,
    waiting for the next run and ticking always makes progress
    ([ingestion_progress]); a server clock set back, which [step_clock]
    excludes, makes [get_latest_data] return an older row than the last
    one inserted. *)

From stdpp Require Import relations.
From S2P Require Import Prelude Store Ingestion Query Dashboard.

Module System.
Import Store Ingestion Query Dashboard.

(** The life cycle of the [BackgroundScheduler]. *)
Inductive sched_state := Created | Running | Stopped.

Record sys := mkSys {
  sched : sched_state;
  next_run : Z;
  world_of : world
}.

(** [trigger="interval", minutes=1], in seconds. *)
Definition INTERVAL : Z := 60.

Definition advance_clock (dt : Z) (w : world) : world :=
  set_db (set_clock (clock (db w) + dt) (db w)) w.

Definition set_server (b : bool) (w : world) : world :=
  set_db (mkStore (rows (db w)) (next_id (db w)) (clock (db w)) b
                  (table_ok (db w)) (faults (db w))) w.

(** The process right after [scheduler.add_job]: created, not started. *)
Definition main_init (w : world) : sys := mkSys Created 0 w.

(** A run of the interval job: [simulate_and_insert_data] on the world,
    whatever it returns (APScheduler logs an exception of the job), and the
    next run planned one interval after the one due. *)
Definition tick (s : sys) : sys :=
  mkSys Running (next_run s + INTERVAL) (snd (simulate_and_insert_data (world_of s))).

Section Steps.
Context {top : Top1Desc}.

Inductive step : sys -> sys -> Prop :=
| step_start s :
    sched s = Created ->
    step s (mkSys Running (clock (db (world_of s)) + INTERVAL) (world_of s))
| step_tick s :
    sched s = Running -> (next_run s <= clock (db (world_of s)))%Z ->
    step s (tick s)
| step_request s :
    step s (mkSys (sched s) (next_run s) (snd (dashboard (world_of s))))
| step_clock s dt :
    (0 <= dt)%Z -> step s (mkSys (sched s) (next_run s) (advance_clock dt (world_of s)))
| step_server s b :
    step s (mkSys (sched s) (next_run s) (set_server b (world_of s)))
| step_shutdown s :
    sched s = Running -> step s (mkSys Stopped (next_run s) (world_of s)).

Lemma step_stopped s s' :
  step s s' -> sched s = Stopped ->
  sched s' = Stopped /\ rows (db (world_of s')) = rows (db (world_of s)).
Proof.
  destruct 1 as [s Hs|s Hs Hn|s|s dt Hdt|s b|s Hs]; simpl; intros Hst;
    try congruence; split; auto.
  apply (dashboard_reads (world_of s)). reflexivity.
Qed.

(** C21. After the shutdown registered with [atexit], the table never
    changes again: requests only read and no tick runs. *)
Theorem stopped_no_writes s s' :
  rtc step s s' -> sched s = Stopped -> rows (db (world_of s')) = rows (db (world_of s)).
Proof.
  induction 1 as [s|s1 s2 s3 H12 H23 IH]; intros Hst; [reflexivity|].
  destruct (step_stopped _ _ H12 Hst) as [Hst2 Hr]. rewrite IH by exact Hst2. exact Hr.
Qed.

(** C22. Only a tick writes: a step of the process that changes the table
    is a run of [simulate_and_insert_data] by the started scheduler, at or
    after the time planned for it. *)
Theorem step_writes_only_by_tick s s' :
  step s s' -> rows (db (world_of s')) <> rows (db (world_of s)) ->
  sched s = Running /\ (next_run s <= clock (db (world_of s)))%Z /\
  s' = tick s.
Proof.
  destruct 1 as [s Hs|s Hs Hn|s|s dt Hdt|s b|s Hs]; simpl; intros Hne;
    try (exfalso; apply Hne; reflexivity); auto.
  exfalso. apply Hne. apply (dashboard_reads (world_of s)). reflexivity.
Qed.

End Steps.

(** ** Ingestion always makes progress *)

(** The store accepts every statement. *)
Definition store_quiet (w : world) : Prop :=
  server_up (db w) = true /\ table_ok (db w) = true /\ faults (db w) = [].

(** One round: wait until the next run is due, then tick. *)
Lemma round_progress {top : Top1Desc} s :
  sched s = Running -> store_quiet (world_of s) ->
  exists s', rtc step s s' /\ sched s' = Running /\ store_quiet (world_of s') /\
    length (rows (db (world_of s'))) = (length (rows (db (world_of s))) + length PARCELS)%nat /\
    next_run s' = (next_run s + INTERVAL)%Z /\
    clock (db (world_of s')) = Z.max (clock (db (world_of s))) (next_run s).
Proof.
  intros Hs (Hu & Ht & Hf).
  set (w1 := advance_clock (Z.max 0 (next_run s - clock (db (world_of s)))) (world_of s)).
  destruct (simulate_quiet w1 Hu Ht Hf) as (_ & (new & Hr & Htr) & Hu' & Ht' & Hf' & Hc' & _).
  exists (tick (mkSys Running (next_run s) w1)). split_and!; simpl; auto.
  - eapply rtc_l; [apply (step_clock s (Z.max 0 (next_run s - clock (db (world_of s))))); lia|].
    eapply rtc_l; [|apply rtc_refl]. replace (sched s) with Running.
    apply step_tick; [reflexivity | simpl; lia].
  - split_and!; assumption.
  - rewrite Hr, length_app, (tick_rows_length _ _ _ _ Htr). reflexivity.
  - rewrite Hc'. simpl. lia.
Qed.

(** C29. Ingestion never gets stuck: from any state where the scheduler
    runs and the store accepts every statement, for every [n] the process
    can reach, by waiting and ticking, a state with [n] more complete
    batches in the table, the scheduler still running, by the time
    [next_run + n * INTERVAL] at the latest. *)
Theorem ingestion_progress {top : Top1Desc} s n :
  sched s = Running -> store_quiet (world_of s) ->
  exists s', rtc step s s' /\ sched s' = Running /\
    length (rows (db (world_of s'))) = (length (rows (db (world_of s))) + n * length PARCELS)%nat /\
    (clock (db (world_of s')) <= Z.max (clock (db (world_of s))) (next_run s + Z.of_nat n * INTERVAL))%Z.
Proof.
  revert s. induction n as [|n IH]; intros s Hs Hq.
  - exists s. split_and!; auto; [apply rtc_refl | lia].
  - destruct (round_progress s Hs Hq) as (s1 & H1 & Hs1 & Hq1 & Hl1 & Hn1 & Hc1).
    destruct (IH s1 Hs1 Hq1) as (s' & H' & Hs' & Hl' & Hc').
    exists s'. split_and!; auto; [etrans; eauto | lia |].
    rewrite Hn1, Hc1 in Hc'. unfold INTERVAL in *. lia.
Qed.

(** The row a tick wrote for [p] is the newest row of [p], among the rows
    before the tick (ids below the counter, times not after the tick's),
    the tick's own and any later rows stamped before the tick. *)
Lemma tick_row_latest old new extra n t p :
  Forall (fun x => (id x < n)%Z) old -> Forall (fun x => (timestamp x <= t)%Z) old ->
  tick_rows n t PARCELS new -> In p PARCELS -> Forall (fun x => (timestamp x < t)%Z) extra ->
  exists r, In r new /\ parcel_id r = p /\ timestamp r = t /\ (n <= id r)%Z /\
    top1_latest (filter (fun x => parcel_id x = p) (old ++ new ++ extra)) = Some r.
Proof.
  intros Hids Hts Htick Hp Hex.
  destruct (tick_rows_find _ _ _ _ p Htick PARCELS_nodup Hp) as (r & Hin & Hrp & Hrt & Hrid & Huniq).
  exists r. split_and!; auto. apply top1_latest_unique_max.
  - apply list_elem_of_In, list_elem_of_filter. split; [exact Hrp|].
    apply list_elem_of_In, in_or_app. right. apply in_or_app. left. exact Hin.
  - intros x Hx Hne. apply list_elem_of_In, list_elem_of_filter in Hx as [Hxp Hx].
    apply list_elem_of_In in Hx. rewrite Forall_forall in Hids, Hts, Hex.
    apply in_app_or in Hx as [Hx|[Hx|Hx]%in_app_or].
    + specialize (Hids x Hx). specialize (Hts x Hx). lia.
    + exfalso. apply Hne, Huniq; assumption.
    + specialize (Hex x Hx). lia.
Qed.

Lemma tick_rows_timestamps n t ps new :
  tick_rows n t ps new -> Forall (fun x => timestamp x = t) new.
Proof.
  revert n new. induction ps as [|p ps IH]; intros n [|r new] H; simpl in *;
    try contradiction; constructor; [apply H | eapply IH, H].
Qed.

(** C9. The latest reading after a tick: on a store that does not fail
    and whose table is well formed, once a tick has run, [get_latest_data p]
    for a parcel [p] of the list returns the row that tick wrote for [p],
    with the moisture and temperature drawn for it, when the engine breaks
    ties of [ORDER BY [timestamp] DESC] by the greatest id. *)
Theorem latest_after_tick s p :
  store_wf (db (world_of s)) -> ts_ok (db (world_of s)) ->
  server_up (db (world_of s)) = true -> table_ok (db (world_of s)) = true ->
  faults (db (world_of s)) = [] -> In p PARCELS ->
  exists r, fst (get_latest_data p (world_of (tick s))) = Ok (Some r) /\
    In r (drop (length (rows (db (world_of s)))) (rows (db (world_of (tick s))))) /\
    parcel_id r = p /\ timestamp r = clock (db (world_of s)).
Proof.
  cbn [tick world_of]. remember (world_of s) as w eqn:Ew. clear Ew.
  intros [_ Hids] [_ Hts] Hup Ht Hf Hp.
  destruct (simulate_quiet w Hup Ht Hf) as (_ & (new & Hr & Htick) & Hup' & Ht' & Hf' & _ & _).
  destruct (tick_row_latest _ new [] _ _ p Hids Hts Htick Hp (Forall_nil _))
    as (r & Hin & Hrp & Hrt & _ & Hlat).
  exists r. rewrite get_latest_data_run by (rewrite ?Hf'; auto; discriminate). simpl.
  rewrite Hr, drop_app_length. split_and!; auto.
  rewrite app_nil_r in Hlat. unfold top1_desc, top1_highest_id. rewrite Hlat. reflexivity.
Qed.

(** C30. A server clock set back breaks "the latest reading is the last
    one inserted", for every well-formed store: after a tick, the clock set
    back by any [d > 0] and a second tick, the second tick has written a
    row for [p] with a greater id than the first tick's, yet
    [get_latest_data p] returns the first tick's row, because the query
    orders by the server-assigned [timestamp] and not by [id]. *)
Theorem latest_after_clock_skew s p d :
  store_wf (db (world_of s)) -> ts_ok (db (world_of s)) -> store_quiet (world_of s) ->
  In p PARCELS -> (0 < d)%Z ->
  let s1 := tick s in
  let s2 := tick (mkSys Running (next_run s1) (advance_clock (- d) (world_of s1))) in
  exists r1 r2,
    In r1 (drop (length (rows (db (world_of s)))) (rows (db (world_of s1)))) /\
    In r2 (drop (length (rows (db (world_of s1)))) (rows (db (world_of s2)))) /\
    parcel_id r1 = p /\ parcel_id r2 = p /\ (id r1 < id r2)%Z /\
    fst (get_latest_data p (world_of s2)) = Ok (Some r1).
Proof.
  cbn [tick world_of next_run]. remember (world_of s) as w eqn:Ew. clear Ew.
  intros Hwf [_ Hts] (Hu & Ht & Hf) Hp Hd.
  pose proof (simulate_store_wf w Hwf) as [_ Hids1]. destruct Hwf as [_ Hids].
  destruct (simulate_quiet w Hu Ht Hf) as (_ & (new1 & Hr1 & Htk1) & Hu1 & Ht1 & Hf1 & Hc1 & _).
  set (w1 := snd (simulate_and_insert_data w)) in *.
  destruct (simulate_quiet (advance_clock (- d) w1) Hu1 Ht1 Hf1)
    as (_ & (new2 & Hr2 & Htk2) & Hu2 & Ht2 & Hf2 & _ & _).
  change (rows (db (advance_clock (- d) w1))) with (rows (db w1)) in Hr2.
  change (next_id (db (advance_clock (- d) w1))) with (next_id (db w1)) in Htk2.
  change (clock (db (advance_clock (- d) w1))) with (clock (db w1) + - d)%Z in Htk2.
  rewrite Hr1 in Hr2.
  destruct (tick_row_latest _ new1 new2 _ _ p Hids Hts Htk1 Hp) as (r1 & Hin1 & Hp1 & _ & _ & Hlat).
  { eapply Forall_impl; [|apply (tick_rows_timestamps _ _ _ _ Htk2)]. intros x Hx. simpl in Hx. lia. }
  destruct (tick_rows_find _ _ _ _ p Htk2 PARCELS_nodup Hp) as (r2 & Hin2 & Hp2 & _ & Hid2 & _).
  exists r1, r2. split_and!; auto.
  - rewrite Hr1, drop_app_length. exact Hin1.
  - rewrite Hr2, <- Hr1, drop_app_length. exact Hin2.
  - rewrite Forall_forall in Hids1.
    assert (Hr : In r1 (rows (db w1))) by (rewrite Hr1; apply in_or_app; right; exact Hin1).
    specialize (Hids1 r1 Hr). lia.
  - rewrite get_latest_data_run by (rewrite ?Hf2; auto; discriminate). simpl.
    rewrite Hr2, <- app_assoc. unfold top1_desc, top1_highest_id. rewrite Hlat. reflexivity.
Qed.

Lemma latest_after_tick_witness :
  let s := mkSys Running 0 (demo_world [] 0) in
  exists r, fst (get_latest_data "Tarla A (Buğday)" (world_of (tick s))) = Ok (Some r) /\
    In r (drop (length (rows (db (world_of s)))) (rows (db (world_of (tick s))))) /\
    parcel_id r = "Tarla A (Buğday)" /\ timestamp r = clock (db (world_of s)).
Proof.
  apply latest_after_tick; [split; constructor | split; constructor | reflexivity | reflexivity
                           | reflexivity | left; reflexivity].
Defined.

Lemma latest_after_clock_skew_witness :
  let s := mkSys Running 0 (demo_world [] 100) in
  let s1 := tick s in
  let s2 := tick (mkSys Running (next_run s1) (advance_clock (- 50) (world_of s1))) in
  exists r1 r2,
    In r1 (drop (length (rows (db (world_of s)))) (rows (db (world_of s1)))) /\
    In r2 (drop (length (rows (db (world_of s1)))) (rows (db (world_of s2)))) /\
    parcel_id r1 = "Tarla A (Buğday)" /\ parcel_id r2 = "Tarla A (Buğday)" /\ (id r1 < id r2)%Z /\
    fst (get_latest_data "Tarla A (Buğday)" (world_of s2)) = Ok (Some r1).
Proof.
  apply (latest_after_clock_skew (mkSys Running 0 (demo_world [] 100)) "Tarla A (Buğday)" 50);
    [split; constructor | split; constructor | split_and!; reflexivity | left; reflexivity | lia].
Defined.

Lemma stopped_no_writes_witness :
  rows (db (world_of (mkSys Stopped 60 (snd (dashboard (demo_world demo_rows 0)))))) =
  rows (db (world_of (mkSys Stopped 60 (demo_world demo_rows 0)))).
Proof.
  apply stopped_no_writes; [|reflexivity].
  eapply rtc_l; [apply step_request|]. apply rtc_refl.
Defined.

Lemma step_writes_only_by_tick_witness :
  let s := mkSys Running 60 (demo_world [] 60) in
  sched s = Running /\ (next_run s <= clock (db (world_of s)))%Z /\
  tick s = tick s.
Proof.
  apply (step_writes_only_by_tick (mkSys Running 60 (demo_world [] 60))).
  - apply step_tick; [reflexivity | simpl; lia].
  - vm_compute. discriminate.
Defined.

Lemma ingestion_progress_witness :
  let s := mkSys Running 60 (demo_world [] 0) in
  sched s = Running /\ store_quiet (world_of s) /\
  exists s', rtc step s s' /\ sched s' = Running /\
    length (rows (db (world_of s'))) = (length (rows (db (world_of s))) + 3 * length PARCELS)%nat /\
    (clock (db (world_of s')) <= Z.max (clock (db (world_of s))) (next_run s + Z.of_nat 3 * INTERVAL))%Z.
Proof.
  split; [reflexivity|]. split; [split_and!; reflexivity|].
  apply ingestion_progress; [reflexivity | split_and!; reflexivity].
Defined.

End System.
