(* ===== verification/Concurrency.v ===== *)
(** * Ticks and requests interleaved statement by statement

    [System] runs a tick as one step.  Here the writer thread runs
    [simulate_and_insert_data] (src/AgriSense/app.py, lines 34-56) phase by
    phase: the connection ([job_begin], lines 36-38), one INSERT per parcel
    ([job_insert], lines 42-52), then commit, close and the f-string of
    line 56 ([job_finish], lines 54-56).  Between any two phases the
    request thread may serve the dashboard, the clock may move and the
    server may go down or come back.  The scheduler's timing is left out:
    a tick may begin whenever none is running, which allows more runs than
    the scheduler does, so what holds here holds of the process.

    A SELECT sees committed rows only ([read_committed]); a reader that
    meets a row locked by the open transaction waits for the commit under
    SQL Server's locking READ COMMITTED, and sees the same committed rows
    when it goes on.  The lemmas [simulate_fine] and [step_fine]
    check the decomposition: the phases run back to back are
    [simulate_and_insert_data], so every step of [System.step] is a run of
    this finer process.  The theorem: in every state of any interleaving the
    table is the initial table followed by complete batches, one row per
    parcel in [PARCELS] order: no reader ever observes part of a tick.
    Statements never block here; a hung connection, which the spec says
    stalls a tick forever, is not modelled. *)

From stdpp Require Import relations.
From S2P Require Import Prelude Store Ingestion Query Dashboard System.

Module Concurrency.
Import Store Ingestion Query Dashboard System.

(** The writer thread: idle, or inside a tick with its open connection
    (holding the pending transaction) and the parcels still to insert. *)
Inductive job :=
| Idle
| Inserting (c : conn) (todo : list string).

Record proc := mkProc { job_of : job; pworld : world }.

(** [conn = get_db_connection(); if conn is None: return] *)
Definition job_begin : PyM job :=
  get_db_connection ≫= fun oc =>
  match oc with
  | None => mret Idle
  | Some c => mret (Inserting c PARCELS)
  end.

(** One iteration of [for parcel_id in PARCELS]. *)
Definition job_insert (c : conn) (p : string) (ps : list string) : PyM job :=
  insert_parcel c p ≫= fun c' => mret (Inserting c' ps).

(** [conn.commit(); conn.close(); print(f"[{datetime.now()...}] ...")] *)
Definition job_finish (c : conn) : PyM unit :=
  commit c ≫= fun c => close c ≫= fun _ => mthrow (NameError "datetime").

(** A phase that raises ends the tick (APScheduler logs the exception). *)
Definition after (r : res exn job * world) : proc :=
  match r with
  | (Ok j, w) => mkProc j w
  | (Exc _, w) => mkProc Idle w
  end.

Section Fine.
Context {top : Top1Desc}.

Inductive fstep : proc -> proc -> Prop :=
| fstep_begin w : fstep (mkProc Idle w) (after (job_begin w))
| fstep_insert c p ps w : fstep (mkProc (Inserting c (p :: ps)) w) (after (job_insert c p ps w))
| fstep_finish c w : fstep (mkProc (Inserting c []) w) (mkProc Idle (snd (job_finish c w)))
| fstep_request j w : fstep (mkProc j w) (mkProc j (snd (dashboard w)))
| fstep_clock j w dt : (0 <= dt)%Z -> fstep (mkProc j w) (mkProc j (advance_clock dt w))
| fstep_server j w b : fstep (mkProc j w) (mkProc j (set_server b w)).

(** ** The phases run back to back are the tick *)

Lemma inserts_fine c ps w :
  rtc fstep (mkProc (Inserting c ps) w)
            (mkProc Idle (snd ((fold_m insert_parcel c ps ≫= job_finish) w))).
Proof.
  revert c w. induction ps as [|p ps IH]; intros c w.
  - apply rtc_once, fstep_finish.
  - simpl fold_m. rewrite run_bind, run_bind.
    destruct (insert_parcel c p w) as [[c1|e] w1] eqn:E.
    + eapply rtc_l; [apply fstep_insert|].
      unfold after, job_insert. rewrite run_bind, E. rewrite <- run_bind. apply IH.
    + simpl. apply rtc_once. replace (mkProc Idle w1) with (after (job_insert c p ps w));
        [apply fstep_insert|]. unfold after, job_insert. rewrite run_bind, E. reflexivity.
Qed.

Lemma simulate_fine w :
  rtc fstep (mkProc Idle w) (mkProc Idle (snd (simulate_and_insert_data w))).
Proof.
  eapply rtc_l; [apply fstep_begin|].
  unfold job_begin, simulate_and_insert_data. rewrite !run_bind.
  unfold get_db_connection. destruct (server_up (db w)); [|apply rtc_refl].
  apply inserts_fine.
Qed.

(** ** Every step is complete batches on top of the initial table *)

Definition batch (b : list reading) : Prop := map parcel_id b = PARCELS.

Definition batches (r0 rs : list reading) : Prop :=
  exists bs, rs = r0 ++ concat bs /\ Forall batch bs.

(** Inside a tick, the pending transaction holds one row for each parcel
    already inserted, in order. *)
Definition pending_ok (j : job) : Prop :=
  match j with
  | Idle => True
  | Inserting c ps => exists done, PARCELS = done ++ ps /\ map parcel_id (txn c) = done
  end.

Definition finv (r0 : list reading) (s : proc) : Prop :=
  batches r0 (rows (db (pworld s))) /\ pending_ok (job_of s).

Lemma batches_snoc r0 rs b : batches r0 rs -> batch b -> batches r0 (rs ++ b).
Proof.
  intros (bs & -> & Hbs) Hb. exists (bs ++ [b]).
  rewrite concat_app, app_assoc. simpl. rewrite app_nil_r. split; [reflexivity|].
  apply Forall_app; auto.
Qed.

Lemma fstep_finv r0 s s' : fstep s s' -> finv r0 s -> finv r0 s'.
Proof.
  destruct 1 as [w|c p ps w|c w|j w|j w dt Hdt|j w b]; intros Hinv; unfold finv in *; simpl in *.
  - unfold job_begin, get_db_connection. rewrite run_bind.
    destruct (server_up (db w)); simpl; (split; [apply Hinv|]); [exists []; auto | exact I].
  - destruct Hinv as [Hb (done & Hd & Ht)]. unfold after, job_insert. rewrite run_bind.
    pose proof (insert_parcel_run c p w) as H.
    destruct (insert_parcel c p w) as [[c1|e] w1]; simpl.
    + destruct H as [(r & Hc & (_ & Hp & _) & _) [_ (Hr & _)]].
      split; [rewrite Hr; exact Hb|]. exists (done ++ [p]).
      rewrite <- app_assoc. split; [exact Hd|]. rewrite Hc, map_app, Ht. simpl. rewrite Hp. reflexivity.
    + destruct H as [_ (Hr & _)]. split; [rewrite Hr; exact Hb | exact I].
  - destruct Hinv as [Hb (done & Hd & Ht)]. split; [|exact I]. simpl.
    apply batches_snoc; [exact Hb|]. unfold batch. rewrite Ht, Hd, app_nil_r. reflexivity.
  - rewrite (proj1 (dashboard_reads w w ltac:(reflexivity))). exact Hinv.
  - exact Hinv.
  - exact Hinv.
Qed.

Lemma finv_rtc r0 s s' : rtc fstep s s' -> finv r0 s -> finv r0 s'.
Proof. induction 1; eauto using fstep_finv. Qed.

Lemma finv_start w : finv (rows (db w)) (mkProc Idle w).
Proof. split; [exists []; simpl; rewrite app_nil_r; auto | exact I]. Qed.

(** One step of the coarse process is a run of the fine one. *)
Lemma step_fine s s' :
  step s s' -> rtc fstep (mkProc Idle (world_of s)) (mkProc Idle (world_of s')).
Proof.
  destruct 1 as [s Hs|s Hs Hn|s|s dt Hdt|s b|s Hs]; simpl.
  - apply rtc_refl.
  - apply simulate_fine.
  - apply rtc_once, fstep_request.
  - apply rtc_once, fstep_clock, Hdt.
  - apply rtc_once, fstep_server.
  - apply rtc_refl.
Qed.

(** C8. No reader ever sees part of a tick: in every state of any
    interleaving of tick phases, requests, clock steps and outages, started
    with no tick running, the committed table is the initial table followed
    by complete batches, each one row per parcel in the order of
    [PARCELS].  The rows a tick has inserted so far are pending in its
    transaction, which reaches the table only whole, at [conn.commit()]. *)
Theorem tick_never_partially_visible w s :
  rtc fstep (mkProc Idle w) s ->
  exists bs, rows (db (pworld s)) = rows (db w) ++ concat bs /\
    Forall batch bs.
Proof. intros H. exact (proj1 (finv_rtc _ _ _ H (finv_start w))). Qed.

End Fine.

(** A tick interrupted after its first INSERT by a request: the table the
    request sees is still the initial one. *)
Definition mid_tick : proc :=
  after (job_insert (mkConn []) "Tarla A (Buğday)" ["Tarla B (Mısır)"]
           (set_open_conns 1 (demo_world [] 0))).

Lemma tick_never_partially_visible_witness :
  exists bs, rows (db (pworld (mkProc (job_of mid_tick) (snd (dashboard (pworld mid_tick)))))) =
    rows (db (demo_world [] 0)) ++ concat bs /\
    Forall batch bs.
Proof.
  apply tick_never_partially_visible.
  eapply rtc_l; [apply fstep_begin|]. eapply rtc_l; [apply fstep_insert|].
  eapply rtc_l; [apply fstep_request|]. apply rtc_refl.
Defined.

End Concurrency.
